(** * monoPay client SDK: the 402 payment-retry middleware

    A shallow embedding of [src/middleware.js] and the properties of its
    payment-required retry protocol.

    The middleware is an [async] function over four ambient capabilities:
    the transport ([fetch]), the Phantom wallet ([window.phantom.solana]),
    the ledger RPC ([Connection.getLatestBlockhash]) and the base58 encoder
    ([bs58.encode]).  They are gathered in an environment record [Env] whose
    fields give the outcome of every external call; the program itself is
    written in a state-and-exception monad whose state carries the
    JavaScript object heap, the wallet's connection state and the trace of
    external interactions performed so far.

    Scope of the environment model: external calls return or throw but do
    not write to the caller's objects, and a 402 body that parses has the
    shape of [PaymentConfig] declared in [middleware.d.ts]. *)

From Stdlib Require Import ZArith String Ascii List.
From Stdlib.Strings Require Import Byte.
From stdpp Require Import gmap strings list fin_maps pretty.

Open Scope string_scope.
Open Scope Z_scope.
Open Scope list_scope.

(** ** JavaScript values, objects and the heap *)

Definition loc := positive.

Inductive value :=
| VUndefined
| VNull
| VBool (b : bool)
| VNum (n : Z)
| VStr (s : string)
| VRef (l : loc).

(** Heap objects, by what object spread can see of them: an ordinary object
    exposes its own enumerable properties, an array its indices, while a
    [Headers] instance keeps its header list in an internal slot and other
    host objects (Blob, FormData, AbortSignal, ...) expose nothing. *)
Inductive object :=
| OPlain (props : gmap string value)
| OArray (elems : list value)
| OHeaders (entries : list (string * string))
| OHost (cls : string).

Definition index_props (vs : list value) : gmap string value :=
  list_to_map (imap (fun i v => (pretty i, v)) vs).

Definition chars (s : string) : list value :=
  map (fun c => VStr (String c EmptyString)) (list_ascii_of_string s).

(** [{...v}]: the own enumerable properties copied out of [v]. *)
Definition own_enumerable (h : gmap loc object) (v : value) : gmap string value :=
  match v with
  | VUndefined | VNull | VBool _ | VNum _ => ∅
  | VStr s => index_props (chars s)
  | VRef l =>
      match h !! l with
      | Some (OPlain props) => props
      | Some (OArray elems) => index_props elems
      | Some (OHeaders _) | Some (OHost _) | None => ∅
      end
  end.

(** ** Errors and outcomes *)

Inductive error := JsError (name message : string).

Definition Error (msg : string) : error := JsError "Error" msg.
Definition TypeError (msg : string) : error := JsError "TypeError" msg.
Definition ReferenceError (msg : string) : error := JsError "ReferenceError" msg.

Inductive outcome (A : Type) :=
| Return (a : A)
| Throw (e : error).
Arguments Return {A} a.
Arguments Throw {A} e.

(** ** Ledger and wallet data *)

Inductive PublicKey := PubKey (bytes : list byte).

Record BlockhashWithExpiryBlockHeight := {
  blockhash : string;
  lastValidBlockHeight : Z
}.

Inductive TransactionInstruction :=
| SystemTransfer (fromPubkey : option PublicKey) (toPubkey : PublicKey) (lamports : Z).

Record Transaction := {
  recentBlockhash : string;
  feePayer : option PublicKey;
  instructions : list TransactionInstruction
}.

(** What the wallet hands back: the transaction and its first signature,
    [signed.signature], which web3.js reports as [null] when there is none. *)
Record SignedTransaction := {
  signed_tx : Transaction;
  signature : option (list byte)
}.

(** The wallet's methods.  [connect()] either rejects or resolves, after
    which the wallet is connected and exposes the key it resolved with;
    the fields [phantom.isConnected] and [phantom.publicKey] are mutable
    and live in the program state below. *)
Record Phantom := {
  connect : outcome (option PublicKey);
  signTransaction : Transaction -> outcome SignedTransaction
}.

(** What the identifier [window] stands for: nothing where there is no such
    global (Node, workers), which is the case [initMonoPay] tests with
    [typeof window === "undefined"]; otherwise an object, seen through its
    [phantom] property and the [solana] provider inside it. *)
Inductive window_binding :=
| WindowUnbound
| Window (phantom : option (option Phantom)).

(** ** Transport data *)

Record PaymentConfig := {
  requiresPayment : bool;
  serviceId : string;
  wallet : string;
  priceLamports : Z;
  message : string
}.

Record Response := {
  status : Z;
  body : string;
  json : outcome PaymentConfig
}.

(** ** Middleware options *)

Record MonoPayMiddlewareOptions := {
  rpcUrl : option string;
  onPaymentStart : option (outcome unit);
  onPaymentSuccess : option (string -> outcome unit);
  onPaymentError : option (error -> outcome unit)
}.

(** ** The environment *)

Record Env := {
  (** [fetch(url, init)], by the number of transport calls already made *)
  env_fetch : nat -> string -> value -> gmap loc object -> outcome Response;
  (** the global [window] *)
  env_window : window_binding;
  (** [new PublicKey(s)] *)
  env_PublicKey : string -> outcome PublicKey;
  (** [new Connection(rpcUrl)] *)
  env_Connection : string -> outcome unit;
  (** [connection.getLatestBlockhash()] of the connection to [rpcUrl] *)
  env_getLatestBlockhash : string -> outcome BlockhashWithExpiryBlockHeight;
  (** [bs58.encode] on a byte array *)
  env_bs58_encode : list byte -> string
}.

(** ** Traces *)

Inductive event :=
| EvFetch (url : string) (init : value) (out : outcome Response)
| EvJson
| EvOnPaymentStart
| EvOnPaymentSuccess (sig : string)
| EvOnPaymentError (e : error)
| EvWalletLookup
| EvWalletConnect
| EvNewPublicKey (address : string)
| EvNewConnection (endpoint : string)
| EvGetLatestBlockhash (endpoint : string)
| EvSignTransaction (tx : Transaction)
| EvBs58Encode (bytes : option (list byte)).

Definition is_fetch (e : event) : bool :=
  match e with EvFetch _ _ _ => true | _ => false end.

Definition is_wallet (e : event) : bool :=
  match e with
  | EvWalletLookup | EvWalletConnect | EvSignTransaction _ => true
  | _ => false
  end.

Definition is_rpc (e : event) : bool :=
  match e with
  | EvNewConnection _ | EvGetLatestBlockhash _ => true
  | _ => false
  end.

Definition is_start (e : event) : bool :=
  match e with EvOnPaymentStart => true | _ => false end.

Definition is_success (e : event) : bool :=
  match e with EvOnPaymentSuccess _ => true | _ => false end.

Definition is_error (e : event) : bool :=
  match e with EvOnPaymentError _ => true | _ => false end.

Definition is_callback (e : event) : bool :=
  is_start e || is_success e || is_error e.

Definition count (p : event -> bool) (t : list event) : nat :=
  length (List.filter p t).

(** ** The monad: state, exceptions and the trace *)

Record state := {
  st_heap : gmap loc object;
  st_isConnected : bool;
  st_publicKey : option PublicKey;
  st_trace : list event
}.

Definition M (A : Type) : Type := state -> outcome A * state.

Definition ret {A} (a : A) : M A := fun s => (Return a, s).

Definition throw {A} (e : error) : M A := fun s => (Throw e, s).

Definition bind {A B} (m : M A) (k : A -> M B) : M B :=
  fun s =>
    match m s with
    | (Return a, s') => k a s'
    | (Throw e, s') => (Throw e, s')
    end.

Definition try_catch {A} (m : M A) (handler : error -> M A) : M A :=
  fun s =>
    match m s with
    | (Return a, s') => (Return a, s')
    | (Throw e, s') => handler e s'
    end.

Notation "'do' x <- m ; k" := (bind m (fun x => k))
  (at level 10, x name, m at level 100, k at level 200,
   format "'[v' 'do'  x  <-  m ; '/' k ']'").

Definition lift {A} (o : outcome A) : M A := fun s => (o, s).

Definition emit (e : event) : M unit :=
  fun s =>
    (Return tt,
     {| st_heap := st_heap s; st_isConnected := st_isConnected s;
        st_publicKey := st_publicKey s; st_trace := st_trace s ++ [e] |}).

Definition set_heap (h : gmap loc object) (s : state) : state :=
  {| st_heap := h; st_isConnected := st_isConnected s;
     st_publicKey := st_publicKey s; st_trace := st_trace s |}.

(** Allocation of a new object at an address the heap does not use. *)
Definition alloc (o : object) : M loc :=
  fun s =>
    let l := fresh (dom (st_heap s)) in
    (Return l, set_heap (<[l := o]> (st_heap s)) s).

(** The property definition [k: v] of an object literal under construction
    at [l]. *)
Definition define_prop (l : loc) (k : string) (v : value) : M unit :=
  fun s =>
    (Return tt,
     set_heap (alter (fun o => match o with
                               | OPlain props => OPlain (<[k := v]> props)
                               | _ => o
                               end) l (st_heap s)) s).

(** [{...src}] as a new object. *)
Definition object_spread (src : value) : M loc :=
  fun s => alloc (OPlain (own_enumerable (st_heap s) src)) s.

(** [v.k] for the one key the middleware reads, [headers]: none of the
    array, [Headers] or host classes defines it, and reading it off
    [undefined] or [null] is a TypeError. *)
Definition get_prop (v : value) (k : string) : M value :=
  fun s =>
    match v with
    | VUndefined =>
        (Throw (TypeError ("Cannot read properties of undefined (reading '" +:+ k +:+ "')")), s)
    | VNull =>
        (Throw (TypeError ("Cannot read properties of null (reading '" +:+ k +:+ "')")), s)
    | VRef l =>
        match st_heap s !! l with
        | Some (OPlain props) => (Return (default VUndefined (props !! k)), s)
        | _ => (Return VUndefined, s)
        end
    | _ => (Return VUndefined, s)
    end.

Definition when_defined {A} (o : option A) (f : A -> M unit) : M unit :=
  match o with
  | Some a => f a
  | None => ret tt
  end.

(** ** External calls, as effects of the monad *)

Section Middleware.

Context (env : Env).

Definition fetch (url : string) (init : value) : M Response :=
  fun s =>
    let out := env_fetch env (count is_fetch (st_trace s)) url init (st_heap s) in
    (do _ <- emit (EvFetch url init out); lift out) s.

Definition response_json (r : Response) : M PaymentConfig :=
  do _ <- emit EvJson; lift (json r).

Definition call_onPaymentStart (cb : outcome unit) : M unit :=
  do _ <- emit EvOnPaymentStart; lift cb.

Definition call_onPaymentSuccess (sig : string) (cb : string -> outcome unit) : M unit :=
  do _ <- emit (EvOnPaymentSuccess sig); lift (cb sig).

Definition call_onPaymentError (err : error) (cb : error -> outcome unit) : M unit :=
  do _ <- emit (EvOnPaymentError err); lift (cb err).

(** [window?.phantom?.solana]: the optional chain stops at a missing
    [phantom] or [solana], but evaluating an identifier that is not bound
    is a ReferenceError before any chaining. *)
Definition window_phantom_solana : M (option Phantom) :=
  match env_window env with
  | WindowUnbound => throw (ReferenceError "window is not defined")
  | Window phantom =>
      do _ <- emit EvWalletLookup;
      match phantom with
      | Some (Some provider) => ret (Some provider)
      | Some None | None => ret None
      end
  end.

Definition phantom_isConnected : M bool :=
  fun s => (Return (st_isConnected s), s).

Definition phantom_publicKey : M (option PublicKey) :=
  fun s => (Return (st_publicKey s), s).

Definition phantom_connect (phantom : Phantom) : M unit :=
  do _ <- emit EvWalletConnect;
  do pk <- lift (connect phantom);
  fun s =>
    (Return tt,
     {| st_heap := st_heap s; st_isConnected := true;
        st_publicKey := pk; st_trace := st_trace s |}).

Definition phantom_signTransaction (phantom : Phantom) (tx : Transaction)
  : M SignedTransaction :=
  do _ <- emit (EvSignTransaction tx); lift (signTransaction phantom tx).

Definition new_PublicKey (address : string) : M PublicKey :=
  do _ <- emit (EvNewPublicKey address); lift (env_PublicKey env address).

Definition new_Connection (endpoint : string) : M unit :=
  do _ <- emit (EvNewConnection endpoint); lift (env_Connection env endpoint).

Definition getLatestBlockhash (endpoint : string) : M BlockhashWithExpiryBlockHeight :=
  do _ <- emit (EvGetLatestBlockhash endpoint);
  lift (env_getLatestBlockhash env endpoint).

(** [bs58.encode(source)]: anything but a byte array is a TypeError. *)
Definition bs58_encode (source : option (list byte)) : M string :=
  do _ <- emit (EvBs58Encode source);
  match source with
  | Some bytes => ret (env_bs58_encode env bytes)
  | None => throw (TypeError "Expected Uint8Array")
  end.

(** ** web3.js constructors *)

Definition new_Transaction (recent : string) (payer : option PublicKey) : Transaction :=
  {| recentBlockhash := recent; feePayer := payer; instructions := [] |}.

Definition Transaction_add (tx : Transaction) (i : TransactionInstruction) : Transaction :=
  {| recentBlockhash := recentBlockhash tx; feePayer := feePayer tx;
     instructions := instructions tx ++ [i] |}.

Definition SystemProgram_transfer (fromPubkey : option PublicKey)
    (toPubkey : PublicKey) (lamports : Z) : TransactionInstruction :=
  SystemTransfer fromPubkey toPubkey lamports.

(** ** The program *)

Definition WalletUnavailable : error :=
  Error "Phantom wallet not found. Please install Phantom extension.".

Definition createAndSignTransaction (paymentConfig : PaymentConfig)
    (rpcUrl : string) : M string :=
  do phantom <- window_phantom_solana;
  match phantom with
  | None => throw WalletUnavailable
  | Some phantom =>
      do connected <- phantom_isConnected;
      do _ <- (if negb connected then phantom_connect phantom else ret tt);
      do fromPubkey <- phantom_publicKey;
      do toPubkey <- new_PublicKey (wallet paymentConfig);
      do _ <- new_Connection rpcUrl;
      do latest <- getLatestBlockhash rpcUrl;
      let tx := new_Transaction (blockhash latest) fromPubkey in
      let tx :=
        Transaction_add tx
          (SystemProgram_transfer fromPubkey toPubkey (priceLamports paymentConfig)) in
      do signed <- phantom_signTransaction phantom tx;
      bs58_encode (signature signed)
  end.

Definition default_rpcUrl : string := "https://api.devnet.solana.com".

(** The request of the retry:
    [{ ...fetchOptions, headers: { ...fetchOptions.headers, "x-tx-signature": signature } }],
    evaluated left to right. *)
Definition retry_init (fetchOptions : value) (sig : string) : M value :=
  do outer <- object_spread fetchOptions;
  do original_headers <- get_prop fetchOptions "headers";
  do inner <- object_spread original_headers;
  do _ <- define_prop inner "x-tx-signature" (VStr sig);
  do _ <- define_prop outer "headers" (VRef inner);
  ret (VRef outer).

(** The parameter default [fetchOptions = {}]. *)
Definition default_fetchOptions (fetchOptions : value) : M value :=
  match fetchOptions with
  | VUndefined => do l <- alloc (OPlain ∅); ret (VRef l)
  | _ => ret fetchOptions
  end.

Definition monoPayFetch (options : MonoPayMiddlewareOptions)
    (url : string) (fetchOptions : value) : M Response :=
  let rpc := default default_rpcUrl (rpcUrl options) in
  do fetchOptions <- default_fetchOptions fetchOptions;
  try_catch
    (do initialResponse <- fetch url fetchOptions;
     if negb (status initialResponse =? 402) then ret initialResponse
     else
       do paymentConfig <- response_json initialResponse;
       do _ <- when_defined (onPaymentStart options) call_onPaymentStart;
       do sig <- createAndSignTransaction paymentConfig rpc;
       do _ <- when_defined (onPaymentSuccess options) (call_onPaymentSuccess sig);
       do init <- retry_init fetchOptions sig;
       do retryResponse <- fetch url init;
       ret retryResponse)
    (fun err =>
       do _ <- when_defined (onPaymentError options) (call_onPaymentError err);
       throw err).

Definition createMonoPayMiddleware (options : MonoPayMiddlewareOptions)
  : string -> value -> M Response :=
  monoPayFetch options.

Definition initMonoPay (options : MonoPayMiddlewareOptions)
  : outcome (string -> value -> M Response) :=
  match env_window env with
  | WindowUnbound => Throw (Error "initMonoPay must be called in the browser.")
  | Window _ =>
      let monoPayFetch := createMonoPayMiddleware options in
      Return monoPayFetch
  end.

End Middleware.

(** A logical call starts with an empty trace. *)
Definition start (h : gmap loc object) (connected : bool)
    (pk : option PublicKey) : state :=
  {| st_heap := h; st_isConnected := connected; st_publicKey := pk; st_trace := [] |}.

(** ** Logical calls and what is observed of them *)

Definition call (env : Env) (options : MonoPayMiddlewareOptions) (url : string)
    (fetchOptions : value) (h : gmap loc object) (connected : bool)
    (pk : option PublicKey) : outcome Response * state :=
  monoPayFetch env options url fetchOptions (start h connected pk).

Definition outcome_of {A} (r : outcome A * state) : outcome A := fst r.
Definition trace_of {A} (r : outcome A * state) : list event := st_trace (snd r).
Definition heap_of {A} (r : outcome A * state) : gmap loc object := st_heap (snd r).

(** The outcomes of the transport calls of a trace, in order. *)
Fixpoint fetch_outcomes (t : list event) : list (outcome Response) :=
  match t with
  | [] => []
  | EvFetch _ _ out :: t' => out :: fetch_outcomes t'
  | _ :: t' => fetch_outcomes t'
  end.

Definition initial_response (t : list event) : option (outcome Response) :=
  head (fetch_outcomes t).

(** The requests of the transport calls of a trace, in order. *)
Fixpoint fetch_requests (t : list event) : list (string * value) :=
  match t with
  | [] => []
  | EvFetch url init _ :: t' => (url, init) :: fetch_requests t'
  | _ :: t' => fetch_requests t'
  end.

(** Callbacks that only notify: none of them throws. *)
Definition notify_only (options : MonoPayMiddlewareOptions) : Prop :=
  (forall e, onPaymentStart options <> Some (Throw e)) /\
  (forall cb sig e, onPaymentSuccess options = Some cb -> cb sig <> Throw e) /\
  (forall cb err e, onPaymentError options = Some cb -> cb err <> Throw e).

(** The two allocating steps read and extend the heap and leave the rest of
    the state alone; these are their results as functions of the heap. *)
Definition default_value (fo : value) (h : gmap loc object) : value :=
  match fst (default_fetchOptions fo (start h false None)) with
  | Return v => v
  | Throw _ => fo
  end.

Definition default_heap (fo : value) (h : gmap loc object) : gmap loc object :=
  st_heap (snd (default_fetchOptions fo (start h false None))).

Definition retry_value (fo : value) (sig : string) (h : gmap loc object)
  : outcome value :=
  fst (retry_init fo sig (start h false None)).

Definition retry_heap (fo : value) (sig : string) (h : gmap loc object)
  : gmap loc object :=
  st_heap (snd (retry_init fo sig (start h false None))).

Definition is_token (e : event) : bool :=
  match e with EvBs58Encode (Some _) => true | _ => false end.

Definition is_sign (e : event) : bool :=
  match e with EvSignTransaction _ => true | _ => false end.

Definition is_connect (e : event) : bool :=
  match e with EvWalletConnect => true | _ => false end.

Definition is_lookup (e : event) : bool :=
  match e with EvWalletLookup => true | _ => false end.

Definition is_json (e : event) : bool :=
  match e with EvJson => true | _ => false end.

(** The event of an optional callback: there only if one is configured. *)
Definition configured {A} (callback : option A) (e : event) : list event :=
  match callback with
  | Some _ => [e]
  | None => []
  end.

(** A page without the wallet: [window.phantom] is missing, or has no
    [solana]. *)
Definition page_without_wallet (env : Env) : Prop :=
  env_window env = Window None \/ env_window env = Window (Some None).

(** No wallet in the environment: such a page, or no [window] at all. *)
Definition wallet_absent (env : Env) : Prop :=
  env_window env = WindowUnbound \/ page_without_wallet env.

(** Every event of [t] that satisfies [p] comes after an [onPaymentStart]. *)
Definition after_start (p : event -> bool) (t : list event) : Prop :=
  forall t1 e t2, t = t1 ++ e :: t2 -> p e = true -> count is_start t1 = 1%nat.

(** The same, as a check that runs over the trace; [seen] tells whether
    [onPaymentStart] has fired already. *)
Fixpoint guarded (p : event -> bool) (seen : bool) (t : list event) : bool :=
  match t with
  | [] => true
  | e :: t' =>
      if p e then seen && guarded p seen t'
      else guarded p (seen || is_start e) t'
  end.

(** The headers object of the retried request, if there is one: the second
    request's options, their [headers], and the properties found there. *)
Definition retried_headers (run : outcome Response * state)
  : option (gmap string value) :=
  match fetch_requests (trace_of run) !! 1%nat with
  | Some (_, VRef lo) =>
      match heap_of run !! lo with
      | Some (OPlain props) =>
          match props !! "headers" with
          | Some (VRef li) =>
              match heap_of run !! li with
              | Some (OPlain sent) => Some sent
              | _ => None
              end
          | _ => None
          end
      | _ => None
      end
  | _ => None
  end.

(** What [fetch] makes of a headers argument: the list of a [Headers]
    instance, the string-valued properties of a plain object. *)
Definition header_value (h : gmap loc object) (headers : value) (name : string)
  : option string :=
  match headers with
  | VRef l =>
      match h !! l with
      | Some (OHeaders entries) => snd <$> List.find (fun e => String.eqb (fst e) name) entries
      | Some (OPlain props) =>
          match props !! name with
          | Some (VStr v) => Some v
          | _ => None
          end
      | _ => None
      end
  | _ => None
  end.

(** Two challenges that ask for the same payment. *)
Definition same_payment (cfg1 cfg2 : PaymentConfig) : Prop :=
  wallet cfg1 = wallet cfg2 /\ priceLamports cfg1 = priceLamports cfg2.

(** Two environments with the same wallet, RPC and encoder, and the same
    server but for its answer to the first request. *)
Definition same_but_first_response (env1 env2 : Env) : Prop :=
  (forall n, env_fetch env1 (S n) = env_fetch env2 (S n)) /\
  env_window env1 = env_window env2 /\
  env_PublicKey env1 = env_PublicKey env2 /\
  env_Connection env1 = env_Connection env2 /\
  env_getLatestBlockhash env1 = env_getLatestBlockhash env2 /\
  env_bs58_encode env1 = env_bs58_encode env2.

(** *** The statements that the code does not meet as written *)

(** Exactly one of [onPaymentSuccess] and [onPaymentError] fires in a call
    that met a challenge. *)
Definition exactly_one_settlement (run : outcome Response * state) : Prop :=
  forall r,
    initial_response (trace_of run) = Some (Return r) ->
    status r = 402 ->
    (count is_success (trace_of run) + count is_error (trace_of run) = 1)%nat.

(** [onPaymentStart] fires at most once and before any of the other two. *)
Definition start_always_first (run : outcome Response * state) : Prop :=
  (count is_start (trace_of run) <= 1)%nat /\
  after_start (fun e => is_success e || is_error e) (trace_of run).

(** A failure of the initial transport call reaches the caller unchanged
    and is not reported to [onPaymentError]. *)
Definition initial_failure_unreported (run : outcome Response * state) : Prop :=
  forall e,
    initial_response (trace_of run) = Some (Throw e) ->
    outcome_of run = Throw e /\ count is_error (trace_of run) = 0%nat.

(** Every header of the caller other than the proof header reaches the
    retried request: [original] is the caller's header list by name. *)
Definition headers_preserved (original : list (string * string))
    (run : outcome Response * state) : Prop :=
  forall url init,
    fetch_requests (trace_of run) !! 1%nat = Some (url, init) ->
    exists lo props li sent,
      init = VRef lo /\
      heap_of run !! lo = Some (OPlain props) /\
      props !! "headers" = Some (VRef li) /\
      heap_of run !! li = Some (OPlain sent) /\
      forall name v,
        (name, v) ∈ original -> name <> "x-tx-signature" ->
        sent !! name = Some (VStr v).

(** ** A concrete page, wallet and server *)

Module Demo.

(** Base58 in the Bitcoin alphabet, as [bs58] computes it: one ['1'] per
    leading zero byte, then the big-endian number in base 58. *)
Definition alphabet : string :=
  "123456789ABCDEFGHJKLMNPQRSTUVWXYZabcdefghijkmnopqrstuvwxyz".

Definition digit (n : N) : ascii :=
  default "1"%char (String.get (N.to_nat n) alphabet).

Fixpoint number (bytes : list byte) (acc : N) : N :=
  match bytes with
  | [] => acc
  | b :: rest => number rest (acc * 256 + Byte.to_N b)%N
  end.

Fixpoint digits (fuel : nat) (n : N) (acc : string) : string :=
  match fuel with
  | O => acc
  | S fuel' =>
      if (n =? 0)%N then acc
      else digits fuel' (n / 58)%N (String (digit (n mod 58)%N) acc)
  end.

Fixpoint leading_ones (bytes : list byte) : string :=
  match bytes with
  | x00 :: rest => String "1"%char (leading_ones rest)
  | _ => EmptyString
  end.

Definition base58 (bytes : list byte) : string :=
  leading_ones bytes +:+ digits (2 * length bytes) (number bytes 0%N) EmptyString.

Definition payer : PublicKey := PubKey [x01; x02; x03].
Definition payee : PublicKey := PubKey [x09; x09].

Definition challenge : PaymentConfig :=
  {| requiresPayment := true; serviceId := "service_123"; wallet := "ADDR1";
     priceLamports := 5000000; message := "Payment required" |}.

Definition other_challenge : PaymentConfig :=
  {| requiresPayment := false; serviceId := "service_456"; wallet := "ADDR1";
     priceLamports := 5000000; message := "Please pay" |}.

Definition not_json : error := JsError "SyntaxError" "Unexpected token < in JSON".
Definition offline : error := TypeError "Failed to fetch".

Definition r402 : Response :=
  {| status := 402; body := "challenge"; json := Return challenge |}.
Definition r402_other : Response :=
  {| status := 402; body := "other challenge"; json := Return other_challenge |}.
Definition r402_html : Response :=
  {| status := 402; body := "<html>"; json := Throw not_json |}.
Definition r200 : Response :=
  {| status := 200; body := "Protected content here!"; json := Throw not_json |}.

Definition signature_bytes : list byte := list_byte_of_string "Hello World!".

Definition phantom : Phantom :=
  {| connect := Return (Some payer);
     signTransaction := fun tx =>
       Return {| signed_tx := tx; signature := Some signature_bytes |} |}.

(** A server that answers the first request with [first] and any later one
    with [second], in an environment whose [window] is [w]. *)
Definition page (first second : outcome Response) (w : window_binding) : Env :=
  {| env_fetch := fun n _ _ _ => match n with O => first | _ => second end;
     env_window := w;
     env_PublicKey := fun s =>
       if String.eqb s "ADDR1" then Return payee
       else Throw (Error "Invalid public key input");
     env_Connection := fun _ => Return tt;
     env_getLatestBlockhash := fun _ =>
       Return {| blockhash := "BH"; lastValidBlockHeight := 10 |};
     env_bs58_encode := base58 |}.

Definition with_wallet : window_binding := Window (Some (Some phantom)).

Definition paying : Env := page (Return r402) (Return r200) with_wallet.
Definition paying_other : Env := page (Return r402_other) (Return r200) with_wallet.
Definition insatiable : Env := page (Return r402) (Return r402) with_wallet.
Definition retry_lost : Env := page (Return r402) (Throw offline) with_wallet.
Definition unreachable : Env := page (Throw offline) (Throw offline) with_wallet.
Definition free : Env := page (Return r200) (Return r200) with_wallet.
Definition bad_body : Env := page (Return r402_html) (Return r200) with_wallet.
Definition no_wallet : Env := page (Return r402) (Return r200) (Window (Some None)).
Definition server_side : Env := page (Return r402) (Return r200) WindowUnbound.

Definition user_rejected : error := Error "User rejected the request.".
Definition rpc_error : error := Error "failed to get recent blockhash".
Definition ui_error : error := TypeError "render failed".

Definition declining_phantom : Phantom :=
  {| connect := Throw user_rejected;
     signTransaction := signTransaction phantom |}.

Definition refusing_phantom : Phantom :=
  {| connect := connect phantom;
     signTransaction := fun _ => Throw user_rejected |}.

Definition bad_address_challenge : PaymentConfig :=
  {| requiresPayment := true; serviceId := "service_123";
     wallet := "not-an-address"; priceLamports := 5000000;
     message := "Payment required" |}.

Definition r402_bad_address : Response :=
  {| status := 402; body := "challenge"; json := Return bad_address_challenge |}.

Definition declining : Env :=
  page (Return r402) (Return r200) (Window (Some (Some declining_phantom))).
Definition refusing : Env :=
  page (Return r402) (Return r200) (Window (Some (Some refusing_phantom))).
Definition bad_address : Env :=
  page (Return r402_bad_address) (Return r200) with_wallet.
Definition rpc_down : Env :=
  {| env_fetch := env_fetch paying;
     env_window := with_wallet;
     env_PublicKey := env_PublicKey paying;
     env_Connection := env_Connection paying;
     env_getLatestBlockhash := fun _ => Throw rpc_error;
     env_bs58_encode := base58 |}.

Definition observers : MonoPayMiddlewareOptions :=
  {| rpcUrl := None;
     onPaymentStart := Some (Return tt);
     onPaymentSuccess := Some (fun _ => Return tt);
     onPaymentError := Some (fun _ => Return tt) |}.

Definition start_throws : MonoPayMiddlewareOptions :=
  {| rpcUrl := None;
     onPaymentStart := Some (Throw ui_error);
     onPaymentSuccess := Some (fun _ => Return tt);
     onPaymentError := Some (fun _ => Return tt) |}.

Definition success_throws : MonoPayMiddlewareOptions :=
  {| rpcUrl := None;
     onPaymentStart := Some (Return tt);
     onPaymentSuccess := Some (fun _ => Throw ui_error);
     onPaymentError := Some (fun _ => Return tt) |}.

(** The caller's objects: at 1 the options [{ method, body, headers }] with
    a plain headers object at 2; at 3 options whose headers are the
    [Headers] instance at 4. *)
Definition caller_heap : gmap loc object :=
  <[1%positive := OPlain (<["method" := VStr "POST"]>
                          (<["body" := VStr "payload"]>
                           (<["headers" := VRef 2%positive]> ∅)))]>
  (<[2%positive := OPlain (<["Authorization" := VStr "Bearer t"]>
                           (<["x-tx-signature" := VStr "stale"]> ∅))]>
  (<[3%positive := OPlain (<["method" := VStr "GET"]>
                           (<["headers" := VRef 4%positive]> ∅))]>
  (<[4%positive := OHeaders [("Authorization", "Bearer t")]]> ∅))).

Definition plain_options : value := VRef 1%positive.
Definition headers_instance_options : value := VRef 3%positive.

Definition run (env : Env) (fetchOptions : value) : outcome Response * state :=
  call env observers "/x" fetchOptions caller_heap false None.

End Demo.

(** * Properties *)

(** ** Heap frame of the two allocating steps *)

Lemma alloc_fresh (h : gmap loc object) : h !! fresh (dom h) = None.
Proof. apply not_elem_of_dom, is_fresh. Qed.

Lemma insert_fresh_subseteq (h : gmap loc object) o :
  h ⊆ <[fresh (dom h) := o]> h.
Proof. apply insert_subseteq, alloc_fresh. Qed.

Lemma alter_outside_subseteq (h h' : gmap loc object) f l :
  h !! l = None -> h ⊆ h' -> h ⊆ alter f l h'.
Proof.
  intros Hl Hsub. apply map_subseteq_spec. intros i x Hi.
  assert (i <> l) by congruence.
  rewrite lookup_alter_ne by done.
  eapply lookup_weaken; eauto.
Qed.

Ltac unfold_heap_steps :=
  cbv [default_value default_heap retry_value retry_heap
       default_fetchOptions retry_init object_spread get_prop define_prop
       alloc bind ret set_heap start];
  cbn [st_heap st_trace st_isConnected st_publicKey fst snd].

Lemma default_fetchOptions_frame fo s :
  default_fetchOptions fo s =
    (Return (default_value fo (st_heap s)), set_heap (default_heap fo (st_heap s)) s).
Proof. destruct s as [h c pk t]. destruct fo; reflexivity. Qed.

Lemma default_heap_extends fo (h : gmap loc object) : h ⊆ default_heap fo h.
Proof.
  destruct fo; unfold_heap_steps; try reflexivity.
  apply insert_fresh_subseteq.
Qed.

Lemma default_defined fo (h : gmap loc object) :
  fo <> VUndefined -> default_value fo h = fo /\ default_heap fo h = h.
Proof. destruct fo; intros Hfo; try contradiction; split; reflexivity. Qed.

Lemma retry_init_frame fo sig s :
  retry_init fo sig s =
    (retry_value fo sig (st_heap s), set_heap (retry_heap fo sig (st_heap s)) s).
Proof.
  destruct s as [h c pk t].
  destruct fo; unfold_heap_steps; try reflexivity.
  destruct (_ !! l) as [[]|]; reflexivity.
Qed.

(** Two allocations in a row, followed by property definitions on the two
    new objects, leave every older object as it was. *)
Lemma two_new_objects_extend (h : gmap loc object) o1 o2 f g :
  h ⊆ alter f (fresh (dom h))
        (alter g (fresh (dom (<[fresh (dom h) := o1]> h)))
           (<[fresh (dom (<[fresh (dom h) := o1]> h)) := o2]>
              (<[fresh (dom h) := o1]> h))).
Proof.
  apply alter_outside_subseteq; [apply alloc_fresh|].
  pose proof (insert_fresh_subseteq h o1) as Hone.
  set (h1 := <[fresh (dom h) := o1]> h) in *.
  apply map_subseteq_spec. intros i x Hi.
  assert (h1 !! i = Some x) as Hi1 by (eapply lookup_weaken; eauto).
  assert (i <> fresh (dom h1)).
  { intros ->. rewrite alloc_fresh in Hi1. discriminate. }
  rewrite lookup_alter_ne by done. rewrite lookup_insert_ne by done. done.
Qed.

(** The objects built for the retry are new ones: nothing that was in the
    heap is overwritten. *)
Lemma retry_heap_extends fo sig (h : gmap loc object) : h ⊆ retry_heap fo sig h.
Proof.
  destruct fo; unfold_heap_steps;
    try apply insert_fresh_subseteq; try apply two_new_objects_extend.
  destruct (_ !! l) as [[]|]; apply two_new_objects_extend.
Qed.

(** ** Enumerating the runs of a call *)

Ltac unfold_program_in H :=
  cbv [try_catch bind fetch response_json when_defined call_onPaymentStart
       call_onPaymentSuccess call_onPaymentError createAndSignTransaction
       window_phantom_solana phantom_isConnected phantom_publicKey
       phantom_connect phantom_signTransaction new_PublicKey new_Connection
       getLatestBlockhash bs58_encode lift emit ret throw set_heap start] in H;
  cbn [st_heap st_trace st_isConnected st_publicKey fst snd] in H.

(** One case split on the next undetermined step of the run in [H]. *)
Ltac step_in H :=
  match type of H with
  | context [retry_init ?fo ?sig ?s] =>
      rewrite (retry_init_frame fo sig s) in H
  | context [match ?x with _ => _ end] =>
      lazymatch x with
      | context [match _ with _ => _ end] => fail
      | _ => revert H; destruct x eqn:?; intros H
      end
  end.

(** Splits the goal into one goal per run of [call], each with its outcome
    and its trace written out. *)
Ltac runs :=
  match goal with
  | |- context [call ?env ?o ?u ?fo ?h ?c ?pk] =>
      let out := fresh "out" in
      let final := fresh "final" in
      let Hrun := fresh "Hrun" in
      destruct (call env o u fo h c pk) as [out final] eqn:Hrun;
      unfold call, monoPayFetch in Hrun;
      unfold bind at 1 in Hrun;
      rewrite default_fetchOptions_frame in Hrun;
      unfold_program_in Hrun;
      repeat (step_in Hrun; unfold_program_in Hrun);
      injection Hrun as <- <-;
      cbv [outcome_of trace_of heap_of];
      cbn [st_heap st_trace st_isConnected st_publicKey fst snd]
  end.

Ltac frame :=
  repeat first
    [ reflexivity
    | apply default_heap_extends
    | etrans; [| apply retry_heap_extends] ].

(** What the retry builds out of a plain options object. *)
Lemma retry_init_plain (h : gmap loc object) l props sig :
  h !! l = Some (OPlain props) ->
  exists lo li,
    h !! lo = None /\ h !! li = None /\
    retry_value (VRef l) sig h = Return (VRef lo) /\
    retry_heap (VRef l) sig h !! lo =
      Some (OPlain (<["headers" := VRef li]> props)) /\
    retry_heap (VRef l) sig h !! li =
      Some (OPlain (<["x-tx-signature" := VStr sig]>
                      (own_enumerable (<[lo := OPlain props]> h)
                         (default VUndefined (props !! "headers"))))).
Proof.
  intros Hl.
  set (lo := fresh (dom h)).
  set (li := fresh (dom (<[lo := OPlain props]> h))).
  assert (Hlo : h !! lo = None) by apply alloc_fresh.
  assert (Hli1 : <[lo := OPlain props]> h !! li = None) by apply alloc_fresh.
  assert (Hne : lo <> li).
  { intros Heq. rewrite <- Heq, lookup_insert_eq in Hli1. discriminate. }
  assert (Hli : h !! li = None).
  { rewrite lookup_insert_ne in Hli1 by done. exact Hli1. }
  assert (Hlne : lo <> l).
  { intros Heq. rewrite Heq, Hl in Hlo. discriminate. }
  assert (Hl1 : <[lo := OPlain props]> h !! l = Some (OPlain props)).
  { rewrite lookup_insert_ne by done. exact Hl. }
  exists lo, li. split; [exact Hlo|]. split; [exact Hli|].
  unfold_heap_steps. cbn [own_enumerable]. rewrite Hl.
  fold lo. rewrite Hl1. fold li. cbn [fst snd st_heap].
  split; [reflexivity|]. split.
  - rewrite lookup_alter_eq, lookup_alter_ne by done.
    rewrite lookup_insert_ne by done.
    rewrite lookup_insert_eq. reflexivity.
  - rewrite lookup_alter_ne by done.
    rewrite lookup_alter_eq, lookup_insert_eq. reflexivity.
Qed.

(** ** Facts about counting and about the ordering check *)

Lemma count_app p (t1 t2 : list event) :
  count p (t1 ++ t2) = (count p t1 + count p t2)%nat.
Proof. unfold count. rewrite List.filter_app. apply length_app. Qed.

Lemma guarded_sound p (t : list event) :
  forall seen,
    guarded p seen t = true ->
    forall t1 e t2,
      t = t1 ++ e :: t2 -> p e = true ->
      seen = true \/ (1 <= count is_start t1)%nat.
Proof.
  induction t as [|x t IH]; intros seen Hg t1 e t2 Heq Hp.
  - destruct t1; discriminate.
  - destruct t1 as [|y t1]; simpl in Heq; injection Heq as -> ->.
    + simpl in Hg. rewrite Hp in Hg.
      apply andb_true_iff in Hg as [-> _]. now left.
    + simpl in Hg. destruct (p y) eqn:Hy.
      * apply andb_true_iff in Hg as [-> _]. now left.
      * destruct (IH _ Hg t1 e t2 eq_refl Hp) as [Hseen|Hcount].
        -- apply orb_true_iff in Hseen as [->|Hs]; [now left|right].
           unfold count. simpl. rewrite Hs. simpl. lia.
        -- right. unfold count in *. simpl. destruct (is_start y); simpl; lia.
Qed.

Lemma guarded_after_start p (t : list event) :
  guarded p false t = true ->
  (count is_start t <= 1)%nat ->
  after_start p t.
Proof.
  intros Hg Hle t1 e t2 Heq Hp.
  destruct (guarded_sound p t false Hg t1 e t2 Heq Hp) as [|H1]; [discriminate|].
  subst t. rewrite count_app in Hle. lia.
Qed.

Ltac status_facts :=
  repeat match goal with
  | H : negb _ = true |- _ => apply negb_true_iff in H
  | H : negb _ = false |- _ => apply negb_false_iff in H
  | H : (_ =? _) = true |- _ => apply Z.eqb_eq in H
  | H : (_ =? _) = false |- _ => apply Z.eqb_neq in H
  end.

(** ** C2: a response that is no challenge passes through *)

(** C2. When the initial response has a status other than 402, the call
    returns exactly that response, the trace is the single transport call
    (made with the caller's own options when there are any), and so there
    is no wallet interaction, no RPC call and no callback. *)
Theorem non_challenge_passthrough env options url fo h c pk r :
  initial_response (trace_of (call env options url fo h c pk)) = Some (Return r) ->
  status r <> 402 ->
  outcome_of (call env options url fo h c pk) = Return r /\
  (exists init,
     trace_of (call env options url fo h c pk) = [EvFetch url init (Return r)] /\
     (fo <> VUndefined -> init = fo)) /\
  count is_fetch (trace_of (call env options url fo h c pk)) = 1%nat /\
  count is_wallet (trace_of (call env options url fo h c pk)) = 0%nat /\
  count is_rpc (trace_of (call env options url fo h c pk)) = 0%nat /\
  count is_callback (trace_of (call env options url fo h c pk)) = 0%nat.
Proof.
  runs; cbn; intros Hinit Hstatus;
    try discriminate; injection Hinit as ->; status_facts;
    try contradiction.
  repeat split; eauto.
  eexists; split; [reflexivity|]. intros Hfo. now apply default_defined.
Qed.

Lemma non_challenge_passthrough_witness :
  outcome_of (Demo.run Demo.free Demo.plain_options) = Return Demo.r200 /\
  count is_fetch (trace_of (Demo.run Demo.free Demo.plain_options)) = 1%nat.
Proof.
  pose proof (non_challenge_passthrough Demo.free Demo.observers "/x"
                Demo.plain_options Demo.caller_heap false None Demo.r200) as H.
  destruct H as (Hout & _ & Hfetch & _).
  - vm_compute. reflexivity.
  - vm_compute. discriminate.
  - split; [exact Hout | exact Hfetch].
Defined.

(** ** C4: at most two round trips *)

(** C4. A call issues at most two transport calls, starts at most one
    payment cycle and asks for at most one signature; and when a second
    transport call was made and answered, its response is what the call
    returns, whatever its status (402 included). *)
Theorem at_most_two_round_trips env options url fo h c pk :
  (count is_fetch (trace_of (call env options url fo h c pk)) <= 2)%nat /\
  (count is_start (trace_of (call env options url fo h c pk)) <= 1)%nat /\
  (count is_sign (trace_of (call env options url fo h c pk)) <= 1)%nat /\
  forall first r,
    fetch_outcomes (trace_of (call env options url fo h c pk)) = [first; Return r] ->
    outcome_of (call env options url fo h c pk) = Return r.
Proof.
  runs; cbn; (repeat split; [lia | lia | lia | ]);
    intros first r Hsecond; congruence.
Qed.

Lemma at_most_two_round_trips_witness :
  status Demo.r402 = 402 /\
  outcome_of (Demo.run Demo.insatiable Demo.plain_options) = Return Demo.r402 /\
  count is_fetch (trace_of (Demo.run Demo.insatiable Demo.plain_options)) = 2%nat.
Proof.
  split; [reflexivity|]. split.
  - apply (at_most_two_round_trips Demo.insatiable Demo.observers "/x"
             Demo.plain_options Demo.caller_heap false None)
      with (first := Return Demo.r402).
    vm_compute. reflexivity.
  - vm_compute. reflexivity.
Defined.

(** ** C10: the caller's objects are left alone *)

(** C10. Whether the call returns or rejects, every object that was in the
    heap when it started, the caller's options and headers among them, is
    still there with the same contents: the retry works on objects of its
    own. *)
Theorem caller_objects_unchanged env options url fo h c pk :
  forall l o,
    h !! l = Some o ->
    heap_of (call env options url fo h c pk) !! l = Some o.
Proof.
  intros l o Hl. eapply lookup_weaken; [exact Hl|]. clear Hl.
  runs; frame.
Qed.

Lemma caller_objects_unchanged_witness :
  heap_of (Demo.run Demo.paying Demo.plain_options) !! 2%positive =
    Some (OPlain (<["Authorization" := VStr "Bearer t"]>
                  (<["x-tx-signature" := VStr "stale"]> ∅))).
Proof.
  apply (caller_objects_unchanged Demo.paying Demo.observers "/x"
           Demo.plain_options Demo.caller_heap false None).
  vm_compute. reflexivity.
Defined.

(** ** C8: failure of the initial transport call *)

(** C8 as written fails: with an unreachable server the error callback is
    told of the transport failure. *)
Lemma initial_failure_is_reported :
  ~ initial_failure_unreported (Demo.run Demo.unreachable Demo.plain_options).
Proof.
  intros Hclaim.
  destruct (Hclaim Demo.offline) as [_ Hnone].
  - vm_compute. reflexivity.
  - vm_compute in Hnone. discriminate.
Qed.

(** C8, amended. When the initial transport call fails, the trace is that
    call followed by one [onPaymentError] with the same error if the
    callback is configured, and nothing else: no wallet, no RPC, no second
    request; the call rejects, with that very error unless the callback
    itself throws. *)
Theorem initial_failure_propagates env options url fo h c pk e :
  initial_response (trace_of (call env options url fo h c pk)) = Some (Throw e) ->
  (exists init,
     trace_of (call env options url fo h c pk) =
       EvFetch url init (Throw e) ::
       match onPaymentError options with
       | Some _ => [EvOnPaymentError e]
       | None => []
       end) /\
  (exists e', outcome_of (call env options url fo h c pk) = Throw e') /\
  ((forall cb e', onPaymentError options = Some cb -> cb e <> Throw e') ->
   outcome_of (call env options url fo h c pk) = Throw e).
Proof.
  runs; cbn; intros Hinit; try discriminate; injection Hinit as ->.
  all: repeat split; eauto.
  intros Hquiet. exfalso. eapply Hquiet; eauto.
Qed.

Lemma initial_failure_propagates_witness :
  outcome_of (Demo.run Demo.unreachable Demo.plain_options) = Throw Demo.offline.
Proof.
  apply (initial_failure_propagates Demo.unreachable Demo.observers "/x"
           Demo.plain_options Demo.caller_heap false None Demo.offline).
  - vm_compute. reflexivity.
  - intros cb e' Hcb. vm_compute in Hcb. injection Hcb as <-. discriminate.
Defined.

(** ** C1: which of the two settlement callbacks fire *)

(** C1 as written fails: when the proof is signed and the retried transport
    call then fails, both [onPaymentSuccess] and [onPaymentError] fire. *)
Lemma both_settlements_fire :
  ~ exactly_one_settlement (Demo.run Demo.retry_lost Demo.plain_options).
Proof.
  intros Hclaim.
  specialize (Hclaim Demo.r402).
  vm_compute in Hclaim.
  specialize (Hclaim eq_refl eq_refl). discriminate.
Qed.

(** C1, amended. In a call whose initial response is a challenge, with both
    callbacks configured: [onPaymentSuccess] fires once if a proof token was
    produced and not otherwise; [onPaymentError] fires once if the call
    rejects and not otherwise; a call that resolves has fired
    [onPaymentSuccess].  So at least one of them fires, and both do exactly
    when the call rejects after the token was produced. *)
Theorem settlement_callbacks env options url fo h c pk r on_success on_error :
  initial_response (trace_of (call env options url fo h c pk)) = Some (Return r) ->
  status r = 402 ->
  onPaymentSuccess options = Some on_success ->
  onPaymentError options = Some on_error ->
  count is_success (trace_of (call env options url fo h c pk)) =
    count is_token (trace_of (call env options url fo h c pk)) /\
  (count is_success (trace_of (call env options url fo h c pk)) <= 1)%nat /\
  (1 <= count is_success (trace_of (call env options url fo h c pk)) +
        count is_error (trace_of (call env options url fo h c pk)))%nat /\
  match outcome_of (call env options url fo h c pk) with
  | Return _ =>
      count is_success (trace_of (call env options url fo h c pk)) = 1%nat /\
      count is_error (trace_of (call env options url fo h c pk)) = 0%nat
  | Throw _ =>
      count is_error (trace_of (call env options url fo h c pk)) = 1%nat
  end.
Proof.
  runs; cbn; intros Hinit Hstatus Hsuccess Herror;
    try discriminate; injection Hinit as ->; status_facts;
    try contradiction; cbn; repeat split; lia.
Qed.

Lemma settlement_callbacks_witness :
  count is_success (trace_of (Demo.run Demo.retry_lost Demo.plain_options)) = 1%nat /\
  count is_error (trace_of (Demo.run Demo.retry_lost Demo.plain_options)) = 1%nat.
Proof.
  pose proof (settlement_callbacks Demo.retry_lost Demo.observers "/x"
                Demo.plain_options Demo.caller_heap false None Demo.r402
                (fun _ => Return tt) (fun _ => Return tt)
                eq_refl eq_refl eq_refl eq_refl) as (Htoken & _ & _ & Hout).
  unfold Demo.run. split.
  - rewrite Htoken. vm_compute. reflexivity.
  - assert (outcome_of (call Demo.retry_lost Demo.observers "/x"
                          Demo.plain_options Demo.caller_heap false None)
            = Throw Demo.offline) as Hrejects by (vm_compute; reflexivity).
    rewrite Hrejects in Hout. exact Hout.
Defined.

(** ** C6: [onPaymentStart] and the order of the callbacks *)

(** C6 as written fails: when the server cannot be reached,
    [onPaymentError] is the first and only callback to fire. *)
Lemma error_can_fire_first :
  ~ start_always_first (Demo.run Demo.unreachable Demo.plain_options).
Proof.
  intros [_ Hafter].
  specialize (Hafter [EvFetch "/x" Demo.plain_options (Throw Demo.offline)]
                (EvOnPaymentError Demo.offline) []).
  vm_compute in Hafter.
  specialize (Hafter eq_refl eq_refl). discriminate.
Qed.

(** What the amended statement leaves out: a challenge whose body does not
    parse is reported to [onPaymentError] without [onPaymentStart] having
    fired. *)
Example unparsable_challenge :
  trace_of (Demo.run Demo.bad_body Demo.plain_options) =
    [EvFetch "/x" Demo.plain_options (Return Demo.r402_html); EvJson;
     EvOnPaymentError Demo.not_json].
Proof. vm_compute. reflexivity. Qed.

(** C6, amended. With [onPaymentStart] configured, it fires at most once in
    a call; every [onPaymentSuccess] comes after it; and so does every
    [onPaymentError] of a call whose initial response was a challenge with
    a body that parsed. *)
Theorem start_precedes_settlement env options url fo h c pk on_start :
  onPaymentStart options = Some on_start ->
  (count is_start (trace_of (call env options url fo h c pk)) <= 1)%nat /\
  after_start is_success (trace_of (call env options url fo h c pk)) /\
  forall r cfg,
    initial_response (trace_of (call env options url fo h c pk)) = Some (Return r) ->
    status r = 402 ->
    json r = Return cfg ->
    after_start is_error (trace_of (call env options url fo h c pk)).
Proof.
  runs; cbn; intros Hstart; try discriminate;
    (split; [cbn; lia|]);
    (split; [apply guarded_after_start; [reflexivity | cbn; lia] |]);
    intros r cfg Hinit Hstatus Hjson;
    try discriminate; injection Hinit as ->; status_facts;
    try contradiction; try congruence;
    (apply guarded_after_start; [reflexivity | cbn; lia]).
Qed.

Lemma start_precedes_settlement_witness :
  after_start is_success (trace_of (Demo.run Demo.paying Demo.plain_options)).
Proof.
  apply (start_precedes_settlement Demo.paying Demo.observers "/x"
           Demo.plain_options Demo.caller_heap false None (Return tt) eq_refl).
Defined.

(** ** C7: no wallet in the environment *)

Ltac silenced Hnotify :=
  exfalso; destruct Hnotify as (Hstart & Hsuccess & Herror);
  first [ eapply Hstart; eassumption
        | eapply Hsuccess; eassumption
        | eapply Herror; eassumption ].

Lemma observers_notify_only : notify_only Demo.observers.
Proof.
  repeat split.
  - intros e He. discriminate He.
  - intros cb sig e Hcb. injection Hcb as <-. discriminate.
  - intros cb err e Hcb. injection Hcb as <-. discriminate.
Qed.

(** C7 where there is no [window]: a middleware made by
    [createMonoPayMiddleware] outside a page (server-side rendering, a
    worker) meets a challenge.  Nothing is retried and no RPC is made, but
    the call rejects with the ReferenceError of the unbound identifier, not
    with the wallet-not-found error; [initMonoPay] on the same environment
    tests [typeof window] and reports the missing browser. *)
Theorem no_window_is_a_reference_error :
  wallet_absent Demo.server_side /\
  initial_response (trace_of (Demo.run Demo.server_side Demo.plain_options))
    = Some (Return Demo.r402) /\
  outcome_of (Demo.run Demo.server_side Demo.plain_options)
    = Throw (ReferenceError "window is not defined") /\
  count is_rpc (trace_of (Demo.run Demo.server_side Demo.plain_options)) = 0%nat /\
  count is_fetch (trace_of (Demo.run Demo.server_side Demo.plain_options)) = 1%nat /\
  initMonoPay Demo.server_side Demo.observers
    = Throw (Error "initMonoPay must be called in the browser.").
Proof.
  split; [left; reflexivity|].
  repeat (split; [vm_compute; reflexivity|]).
  reflexivity.
Qed.

(** X1. In any environment without a wallet, a call makes no RPC interaction
    (neither a connection nor a blockhash request), asks for no signature
    and sends exactly one request, so nothing is retried.  In a page
    without a wallet, when the initial response was a challenge whose body
    parsed, the call rejects with the wallet-not-found error (the callbacks
    being mere observers). *)
Lemma wallet_unavailable env options url fo h c pk :
  wallet_absent env ->
  count is_rpc (trace_of (call env options url fo h c pk)) = 0%nat /\
  count is_sign (trace_of (call env options url fo h c pk)) = 0%nat /\
  count is_fetch (trace_of (call env options url fo h c pk)) = 1%nat /\
  forall r cfg,
    page_without_wallet env ->
    initial_response (trace_of (call env options url fo h c pk)) = Some (Return r) ->
    status r = 402 ->
    json r = Return cfg ->
    notify_only options ->
    outcome_of (call env options url fo h c pk) = Throw WalletUnavailable.
Proof.
  unfold wallet_absent, page_without_wallet.
  runs; cbn; intros [Habsent|[Habsent|Habsent]]; try discriminate;
    (split; [reflexivity|]); (split; [reflexivity|]); (split; [reflexivity|]);
    intros r cfg [Hpage|Hpage] Hinit Hstatus Hjson Hnotify;
    try discriminate; injection Hinit as ->; status_facts;
    try contradiction; try congruence;
    silenced Hnotify.
Qed.

Lemma wallet_unavailable_witness :
  count is_rpc (trace_of (Demo.run Demo.no_wallet Demo.plain_options)) = 0%nat /\
  outcome_of (Demo.run Demo.no_wallet Demo.plain_options) = Throw WalletUnavailable.
Proof.
  destruct (wallet_unavailable Demo.no_wallet Demo.observers "/x"
              Demo.plain_options Demo.caller_heap false None)
    as (Hrpc & _ & _ & Hout).
  - right. right. reflexivity.
  - split; [exact Hrpc|].
    apply (Hout Demo.r402 Demo.challenge); try reflexivity.
    + right. reflexivity.
    + apply observers_notify_only.
Defined.

(** A middleware obtained from [initMonoPay] runs in a page. *)
Lemma initMonoPay_needs_a_page env options middleware :
  initMonoPay env options = Return middleware ->
  env_window env <> WindowUnbound /\ middleware = monoPayFetch env options.
Proof.
  unfold initMonoPay, createMonoPayMiddleware.
  destruct (env_window env); intros Hinit; [discriminate|].
  injection Hinit as <-. split; [discriminate | reflexivity].
Qed.

(** ** C3: what a proof token is *)

(** C3. Whenever [createAndSignTransaction] returns a token, the wallet was
    asked once to sign a transaction with a single transfer instruction,
    from the wallet's public key to the key parsed from the challenge's
    [wallet] address, of [priceLamports] lamports, with the wallet's key as
    fee payer and the blockhash just fetched from the given RPC endpoint;
    and the token is the base58 text of the signature of what the wallet
    gave back. *)
Theorem proof_token_is_encoded_signature env cfg rpc s token s' :
  createAndSignTransaction env cfg rpc s = (Return token, s') ->
  exists phantom destination latest signed sig_bytes t,
    env_window env = Window (Some (Some phantom)) /\
    env_PublicKey env (wallet cfg) = Return destination /\
    env_getLatestBlockhash env rpc = Return latest /\
    signTransaction phantom
      {| recentBlockhash := blockhash latest;
         feePayer := st_publicKey s';
         instructions :=
           [SystemTransfer (st_publicKey s') destination (priceLamports cfg)] |}
      = Return signed /\
    signature signed = Some sig_bytes /\
    token = env_bs58_encode env sig_bytes /\
    st_trace s' = st_trace s ++ t /\
    List.filter is_sign t =
      [EvSignTransaction
         {| recentBlockhash := blockhash latest;
            feePayer := st_publicKey s';
            instructions :=
              [SystemTransfer (st_publicKey s') destination (priceLamports cfg)] |}] /\
    List.filter is_rpc t = [EvNewConnection rpc; EvGetLatestBlockhash rpc].
Proof.
  intros Hrun. destruct s as [h c pk t0].
  unfold_program_in Hrun.
  repeat (step_in Hrun; unfold_program_in Hrun);
    try discriminate; injection Hrun as <- <-;
    cbn [st_publicKey st_trace];
    repeat rewrite <- app_assoc;
    do 6 eexists; (repeat split; try eassumption; reflexivity).
Qed.

Lemma proof_token_is_encoded_signature_witness :
  exists signed sig_bytes,
    signature signed = Some sig_bytes /\
    "2NEpo7TZRRrLZSi2U" = env_bs58_encode Demo.paying sig_bytes.
Proof.
  destruct (proof_token_is_encoded_signature Demo.paying Demo.challenge
              default_rpcUrl (start Demo.caller_heap false None)
              "2NEpo7TZRRrLZSi2U"
              (snd (createAndSignTransaction Demo.paying Demo.challenge
                      default_rpcUrl (start Demo.caller_heap false None))))
    as (phantom & destination & latest & signed & sig_bytes & t
        & _ & _ & _ & _ & Hsig & Htoken & _).
  - vm_compute. reflexivity.
  - exists signed, sig_bytes. split; [exact Hsig | exact Htoken].
Defined.

(** X5. Inside a call, whenever a signature is encoded: the challenge is the
    parsed body of the initial 402 response, the endpoint is the configured
    one, and the signed transaction pays that challenge from the wallet's
    key. *)
Lemma proof_acquired_in_a_call env options url fo h c pk bytes :
  In (EvBs58Encode (Some bytes)) (trace_of (call env options url fo h c pk)) ->
  exists r cfg phantom destination latest signed,
    initial_response (trace_of (call env options url fo h c pk)) = Some (Return r) /\
    status r = 402 /\
    json r = Return cfg /\
    env_window env = Window (Some (Some phantom)) /\
    env_PublicKey env (wallet cfg) = Return destination /\
    env_getLatestBlockhash env (default default_rpcUrl (rpcUrl options))
      = Return latest /\
    signTransaction phantom
      {| recentBlockhash := blockhash latest;
         feePayer := st_publicKey (snd (call env options url fo h c pk));
         instructions :=
           [SystemTransfer (st_publicKey (snd (call env options url fo h c pk)))
              destination (priceLamports cfg)] |}
      = Return signed /\
    signature signed = Some bytes.
Proof.
  runs; cbn; intros Hin;
    repeat (destruct Hin as [Hin|Hin]; try discriminate);
    try contradiction;
    injection Hin as <-; status_facts;
    do 6 eexists; repeat split; eauto.
Qed.

(** ** C9: the labels of a challenge are not read *)

Lemma initial_response_of_call env options url fo h c pk :
  initial_response (trace_of (call env options url fo h c pk)) =
    Some (env_fetch env 0 url (default_value fo h) (default_heap fo h)).
Proof. runs; cbn in *; congruence. Qed.

(** One case split on the next step of two runs that go side by side. *)
Ltac step_both H1 H2 Hlater :=
  unfold_program_in H1; unfold_program_in H2;
  cbn [count List.filter length is_fetch app] in H1, H2;
  rewrite ?retry_init_frame in H1; rewrite ?retry_init_frame in H2;
  cbn [st_heap set_heap st_trace st_isConnected st_publicKey] in H1, H2;
  rewrite <- ?Hlater in H2;
  match type of H1 with
  | context [match ?x with _ => _ end] =>
      lazymatch x with
      | context [match _ with _ => _ end] => fail
      | _ => revert H1 H2; destruct x eqn:?; intros H1 H2
      end
  end.

(** C9. Two challenges that agree on [wallet] and [priceLamports] make
    [createAndSignTransaction] do the same thing, whatever their
    [serviceId], [message] and [requiresPayment]: the same wallet and RPC
    interactions, the same transaction to sign, the same token.  And two
    calls that differ only in such a challenge end alike: same outcome,
    same heap (hence the same retried request), same requests sent and the
    same trace after the initial response. *)
Theorem challenge_labels_ignored env1 env2 options url fo h c pk rpc s
    cfg1 cfg2 r1 r2 :
  same_payment cfg1 cfg2 ->
  createAndSignTransaction env1 cfg1 rpc s =
    createAndSignTransaction env1 cfg2 rpc s /\
  (same_but_first_response env1 env2 ->
   initial_response (trace_of (call env1 options url fo h c pk)) = Some (Return r1) ->
   initial_response (trace_of (call env2 options url fo h c pk)) = Some (Return r2) ->
   status r1 = 402 -> status r2 = 402 ->
   json r1 = Return cfg1 -> json r2 = Return cfg2 ->
   outcome_of (call env1 options url fo h c pk) =
     outcome_of (call env2 options url fo h c pk) /\
   heap_of (call env1 options url fo h c pk) =
     heap_of (call env2 options url fo h c pk) /\
   fetch_requests (trace_of (call env1 options url fo h c pk)) =
     fetch_requests (trace_of (call env2 options url fo h c pk)) /\
   tail (trace_of (call env1 options url fo h c pk)) =
     tail (trace_of (call env2 options url fo h c pk))).
Proof.
  intros [Hwallet Hprice]. split.
  { unfold createAndSignTransaction. rewrite Hwallet, Hprice. reflexivity. }
  intros (Hlater & Hw & Hpk & Hc & Hb & He) H1 H2 Hs1 Hs2 Hj1 Hj2.
  rewrite initial_response_of_call in H1, H2.
  injection H1 as H1. injection H2 as H2.
  destruct (call env1 options url fo h c pk) as [out1 final1] eqn:Hrun1.
  destruct (call env2 options url fo h c pk) as [out2 final2] eqn:Hrun2.
  unfold call, monoPayFetch in Hrun1, Hrun2.
  unfold bind at 1 in Hrun1. unfold bind at 1 in Hrun2.
  rewrite default_fetchOptions_frame in Hrun1, Hrun2.
  unfold_program_in Hrun1. unfold_program_in Hrun2.
  change (count is_fetch []) with 0%nat in Hrun1, Hrun2.
  rewrite H1, Hs1, Hj1 in Hrun1. rewrite H2, Hs2, Hj2 in Hrun2.
  cbn [negb Z.eqb Pos.eqb] in Hrun1, Hrun2.
  rewrite Hwallet, Hprice in Hrun1.
  destruct env1 as [f1 w1 k1 c1 b1 e1], env2 as [f2 w2 k2 c2 b2 e2].
  cbn [env_fetch env_window env_PublicKey env_Connection
       env_getLatestBlockhash env_bs58_encode] in *.
  subst w2 k2 c2 b2 e2.
  repeat step_both Hrun1 Hrun2 Hlater.
  all: injection Hrun1 as <- <-; injection Hrun2 as <- <-.
  all: cbn; repeat split; reflexivity.
Qed.

Lemma challenge_labels_ignored_witness :
  serviceId Demo.challenge <> serviceId Demo.other_challenge /\
  message Demo.challenge <> message Demo.other_challenge /\
  requiresPayment Demo.challenge <> requiresPayment Demo.other_challenge /\
  heap_of (Demo.run Demo.paying Demo.plain_options) =
    heap_of (Demo.run Demo.paying_other Demo.plain_options) /\
  tail (trace_of (Demo.run Demo.paying Demo.plain_options)) =
    tail (trace_of (Demo.run Demo.paying_other Demo.plain_options)).
Proof.
  repeat (split; [discriminate|]).
  destruct (challenge_labels_ignored Demo.paying Demo.paying_other
              Demo.observers "/x" Demo.plain_options Demo.caller_heap false None
              default_rpcUrl (start Demo.caller_heap false None)
              Demo.challenge Demo.other_challenge Demo.r402 Demo.r402_other)
    as [_ Hcalls].
  - split; reflexivity.
  - destruct Hcalls as (_ & Hheap & _ & Htrace); try reflexivity.
    + repeat split; reflexivity.
    + split; [exact Hheap | exact Htrace].
Defined.

(** ** C5: the headers of the retried request *)

(** C5 at a caller who passes a [Headers] instance, one of the forms of
    [RequestInit.headers]: the first request carries the caller's
    [Authorization] header, the retried request carries the proof header
    and nothing else. *)
Theorem headers_instance_dropped :
  header_value Demo.caller_heap (VRef 4%positive) "Authorization" = Some "Bearer t" /\
  fetch_requests (trace_of (Demo.run Demo.paying Demo.headers_instance_options))
    = [("/x", Demo.headers_instance_options); ("/x", VRef 5%positive)] /\
  retried_headers (Demo.run Demo.paying Demo.headers_instance_options)
    = Some {[ "x-tx-signature" := VStr "2NEpo7TZRRrLZSi2U" ]} /\
  retried_headers (Demo.run Demo.paying Demo.headers_instance_options)
    ≫= (.!! "Authorization") = None.
Proof. vm_compute. repeat split; reflexivity. Qed.

Lemma headers_instance_not_preserved :
  ~ headers_preserved [("Authorization", "Bearer t")]
      (Demo.run Demo.paying Demo.headers_instance_options).
Proof.
  intros Hclaim.
  destruct (Hclaim "/x" (VRef 5%positive)) as
    (lo & props & li & sent & Hinit & Hlo & Hheaders & Hli & Hall).
  { vm_compute. reflexivity. }
  injection Hinit as <-.
  vm_compute in Hlo. injection Hlo as <-.
  vm_compute in Hheaders. injection Hheaders as <-.
  vm_compute in Hli. injection Hli as <-.
  specialize (Hall "Authorization" "Bearer t").
  vm_compute in Hall.
  assert (None = Some (VStr "Bearer t")) as Habsurd; [|discriminate].
  apply Hall; [constructor | discriminate].
Qed.

(** X3. A caller whose options and headers are plain objects:
    the retried request goes to the same URL with a copy of the options in
    which only [headers] is replaced, by a copy of the caller's headers in
    which only the proof header is set, to the token that was encoded. *)
Lemma plain_headers_reach_the_retry env options url l props hdrs h c pk :
  h !! l = Some (OPlain props) ->
  (props !! "headers" = None /\ hdrs = ∅ \/
   exists lh, props !! "headers" = Some (VRef lh) /\ h !! lh = Some (OPlain hdrs)) ->
  forall u init,
    fetch_requests (trace_of (call env options url (VRef l) h c pk)) !! 1%nat
      = Some (u, init) ->
    exists lo li props' sent bytes,
      u = url /\ init = VRef lo /\
      heap_of (call env options url (VRef l) h c pk) !! lo = Some (OPlain props') /\
      props' !! "headers" = Some (VRef li) /\
      (forall k, k <> "headers" -> props' !! k = props !! k) /\
      heap_of (call env options url (VRef l) h c pk) !! li = Some (OPlain sent) /\
      In (EvBs58Encode (Some bytes)) (trace_of (call env options url (VRef l) h c pk)) /\
      sent !! "x-tx-signature" = Some (VStr (env_bs58_encode env bytes)) /\
      (forall k, k <> "x-tx-signature" -> sent !! k = hdrs !! k).
Proof.
  intros Hl Hheaders u init.
  runs; cbn; intros Hsecond; try discriminate; injection Hsecond as <- <-;
    change (default_value (VRef l) h) with (VRef l) in *;
    change (default_heap (VRef l) h) with h in *;
    match goal with
    | Hv : retry_value _ ?sig _ = Return ?v |- _ =>
        destruct (retry_init_plain h l props sig Hl)
          as (lo & li & Hlo & Hli & Hvalue & Hopts & Hsent);
        rewrite Hvalue in Hv; injection Hv as <-
    end.
  all: do 5 eexists; split; [reflexivity|]; split; [reflexivity|];
       split; [exact Hopts|]; split; [apply lookup_insert_eq|];
       (split; [intros k Hk; apply lookup_insert_ne; done|]);
       split; [exact Hsent|];
       (split; [repeat first [left; reflexivity | right]|]);
       split; [apply lookup_insert_eq|];
       intros k Hk; rewrite lookup_insert_ne by done;
       destruct Hheaders as [[-> ->] | (lh & -> & Hlh)]; cbn; [reflexivity|];
       rewrite lookup_insert_ne by (intros ->; congruence);
       rewrite Hlh; reflexivity.
Qed.

Example plain_caller_keeps_headers :
  retried_headers (Demo.run Demo.paying Demo.plain_options)
    = Some (<["Authorization" := VStr "Bearer t"]>
            {[ "x-tx-signature" := VStr "2NEpo7TZRRrLZSi2U" ]}).
Proof. vm_compute. reflexivity. Qed.

(** ** The RPC endpoint and the encoder of the examples *)

(** X4. Every RPC interaction of a call goes to the configured endpoint, the
    public devnet one when none is given. *)
Lemma rpc_endpoint_configured env options url fo h c pk :
  Forall (fun e =>
            is_rpc e = true ->
            e = EvNewConnection (default default_rpcUrl (rpcUrl options)) \/
            e = EvGetLatestBlockhash (default default_rpcUrl (rpcUrl options)))
    (trace_of (call env options url fo h c pk)).
Proof.
  runs; cbn;
    repeat (apply List.Forall_cons; [cbn; intros; try discriminate; auto|]);
    apply List.Forall_nil.
Qed.

Example base58_hello :
  Demo.base58 (list_byte_of_string "Hello World!") = "2NEpo7TZRRrLZSi2U".
Proof. vm_compute. reflexivity. Qed.

Example base58_leading_zeros :
  Demo.base58 [x00; x00; x01] = "112".
Proof. vm_compute. reflexivity. Qed.

(** * Further properties of the middleware *)

(** ** The shape of a call *)

(** X6. A call that sent a second request did, in this order and nothing else:
    the initial request, answered by a challenge; the reading of its body;
    [onPaymentStart]; the wallet lookup; a connection request if the wallet
    was not connected; the parsing of the payout address; the RPC
    connection and the blockhash request; one signing request; the
    encoding of the signature; [onPaymentSuccess] with the token; the
    second request; and [onPaymentError] if that request failed. *)
Theorem retried_call_trace env options url fo h c pk first second :
  fetch_outcomes (trace_of (call env options url fo h c pk)) = [first; second] ->
  exists r init cfg tx bytes init',
    first = Return r /\ status r = 402 /\ json r = Return cfg /\
    trace_of (call env options url fo h c pk) =
      [EvFetch url init (Return r); EvJson] ++
      configured (onPaymentStart options) EvOnPaymentStart ++
      [EvWalletLookup] ++
      (if c then [] else [EvWalletConnect]) ++
      [EvNewPublicKey (wallet cfg);
       EvNewConnection (default default_rpcUrl (rpcUrl options));
       EvGetLatestBlockhash (default default_rpcUrl (rpcUrl options));
       EvSignTransaction tx;
       EvBs58Encode (Some bytes)] ++
      configured (onPaymentSuccess options)
        (EvOnPaymentSuccess (env_bs58_encode env bytes)) ++
      [EvFetch url init' second] ++
      match second with
      | Return _ => []
      | Throw e => configured (onPaymentError options) (EvOnPaymentError e)
      end.
Proof.
  unfold configured.
  runs; cbn; intros Hfetches; try discriminate; injection Hfetches as <- <-;
    status_facts; destruct c; try discriminate;
    do 6 eexists; (repeat split; try eassumption; reflexivity).
Qed.

Lemma retried_call_trace_witness :
  exists r cfg,
    Return Demo.r402 = Return r /\ status r = 402 /\ json r = Return cfg /\
    length (trace_of (Demo.run Demo.retry_lost Demo.plain_options)) = 13%nat.
Proof.
  destruct (retried_call_trace Demo.retry_lost Demo.observers "/x"
              Demo.plain_options Demo.caller_heap false None
              (Return Demo.r402) (Throw Demo.offline))
    as (r & init & cfg & tx & bytes & init' & Hr & Hstatus & Hcfg & Htrace).
  - vm_compute. reflexivity.
  - exists r, cfg. split; [exact Hr|]. split; [exact Hstatus|].
    split; [exact Hcfg|]. unfold Demo.run. rewrite Htrace.
    reflexivity.
Defined.

(** X7. A call that resolves ends with the request whose response it returns:
    nothing is read off that response and no callback follows it. *)
Theorem resolved_call_ends_with_its_response env options url fo h c pk r :
  outcome_of (call env options url fo h c pk) = Return r ->
  (exists init,
     last (trace_of (call env options url fo h c pk))
       = Some (EvFetch url init (Return r))) /\
  count is_error (trace_of (call env options url fo h c pk)) = 0%nat.
Proof.
  runs; cbn; intros Hout; try discriminate; injection Hout as <-;
    (split; [eexists; reflexivity | reflexivity]).
Qed.

Lemma resolved_call_ends_with_its_response_witness :
  count is_error (trace_of (Demo.run Demo.paying Demo.plain_options)) = 0%nat.
Proof.
  apply (resolved_call_ends_with_its_response Demo.paying Demo.observers "/x"
           Demo.plain_options Demo.caller_heap false None Demo.r200).
  vm_compute. reflexivity.
Defined.

(** X8. A call that rejects, with [onPaymentError] configured, ends with that
    callback, called once in the whole call; the caller gets the error the
    callback was given, unless the callback throws, in which case the
    caller gets what it threw. *)
Theorem rejection_is_reported env options url fo h c pk e on_error :
  outcome_of (call env options url fo h c pk) = Throw e ->
  onPaymentError options = Some on_error ->
  exists reported,
    last (trace_of (call env options url fo h c pk))
      = Some (EvOnPaymentError reported) /\
    count is_error (trace_of (call env options url fo h c pk)) = 1%nat /\
    match on_error reported with
    | Return _ => e = reported
    | Throw thrown => e = thrown
    end.
Proof.
  runs; cbn; intros Hout Hcb; try discriminate;
    injection Hout as <-; injection Hcb as <-;
    eexists; (split; [reflexivity|]); (split; [reflexivity|]);
    match goal with
    | Hcall : ?f ?x = _ |- context [?f ?x] => rewrite Hcall
    end; reflexivity.
Qed.

Lemma rejection_is_reported_witness :
  exists reported,
    last (trace_of (Demo.run Demo.retry_lost Demo.plain_options))
      = Some (EvOnPaymentError reported) /\
    Demo.offline = reported.
Proof.
  destruct (rejection_is_reported Demo.retry_lost Demo.observers "/x"
              Demo.plain_options Demo.caller_heap false None Demo.offline
              (fun _ => Return tt))
    as (reported & Hlast & _ & Hsame).
  - vm_compute. reflexivity.
  - reflexivity.
  - exists reported. split; [exact Hlast | exact Hsame].
Defined.

(** X9. Every request of a call goes to the URL the caller gave, and the first
    one carries the caller's options value itself when there is one. *)
Theorem requests_go_to_the_given_url env options url fo h c pk :
  Forall (fun request => fst request = url)
    (fetch_requests (trace_of (call env options url fo h c pk))) /\
  (fo <> VUndefined ->
   head (fetch_requests (trace_of (call env options url fo h c pk)))
     = Some (url, fo)).
Proof.
  runs; cbn;
    (split; [repeat (apply List.Forall_cons; [reflexivity|]); apply List.Forall_nil|]);
    intros Hfo; destruct (default_defined fo h Hfo) as [-> _]; reflexivity.
Qed.

Lemma requests_go_to_the_given_url_witness :
  head (fetch_requests (trace_of (Demo.run Demo.paying Demo.plain_options)))
    = Some ("/x", Demo.plain_options).
Proof.
  apply (requests_go_to_the_given_url Demo.paying Demo.observers "/x"
           Demo.plain_options Demo.caller_heap false None).
  discriminate.
Defined.

(** ** Failures on the way to the proof *)

(** Brings the facts of one run together: equal outcomes of the same step
    name the same value. *)
Ltac same_step :=
  repeat match goal with
  | H : Some _ = Some _ |- _ => injection H as H
  | H : Return _ = Return _ |- _ => injection H as H
  | H : Throw _ = Throw _ |- _ => injection H as H
  | H : Window _ = Window _ |- _ => injection H as H
  | H : EvSignTransaction _ = EvSignTransaction _ |- _ => injection H as H
  | H : EvOnPaymentSuccess _ = EvOnPaymentSuccess _ |- _ => injection H as H
  | H : EvBs58Encode _ = EvBs58Encode _ |- _ => injection H as H
  | H : ?x = ?y |- _ => first [is_var x; subst x | is_var y; subst y]
  | H1 : ?x = Return ?a, H2 : ?x = Return ?b |- _ =>
      assert (a = b) by congruence; clear H2
  | H1 : ?x = Throw ?a, H2 : ?x = Throw ?b |- _ =>
      assert (a = b) by congruence; clear H2
  end.

Ltac impossible :=
  status_facts; same_step;
  try discriminate; try contradiction; try congruence.

(** X10. The wallet is asked to connect only if it is not connected already, and
    then once, right when it has been found. *)
Theorem connect_only_when_disconnected env options url fo h c pk :
  (count is_connect (trace_of (call env options url fo h c pk)) <= 1)%nat /\
  (c = true ->
   count is_connect (trace_of (call env options url fo h c pk)) = 0%nat) /\
  (forall phantom,
     c = false ->
     env_window env = Window (Some (Some phantom)) ->
     count is_connect (trace_of (call env options url fo h c pk)) =
       count is_lookup (trace_of (call env options url fo h c pk))).
Proof.
  runs; cbn; (split; [lia|]);
    (split; [intros ->; try discriminate; reflexivity|]);
    intros provider -> Hwindow; impossible; reflexivity.
Qed.

Lemma connect_only_when_disconnected_witness :
  count is_connect (trace_of (call Demo.paying Demo.observers "/x"
                                Demo.plain_options Demo.caller_heap true
                                (Some Demo.payer))) = 0%nat.
Proof.
  apply (connect_only_when_disconnected Demo.paying Demo.observers "/x"
           Demo.plain_options Demo.caller_heap true (Some Demo.payer)).
  reflexivity.
Defined.

(** X11. When the wallet is not connected and its [connect()] rejects, the call
    stops there: after the challenge was read and [onPaymentStart] called,
    the wallet was looked up and asked to connect, [onPaymentError] is told
    of the rejection, and nothing else happens; the caller gets the
    wallet's error unless [onPaymentError] throws. *)
Theorem connection_rejected env options url fo h pk r cfg phantom e :
  initial_response (trace_of (call env options url fo h false pk)) = Some (Return r) ->
  status r = 402 ->
  json r = Return cfg ->
  (forall thrown, onPaymentStart options <> Some (Throw thrown)) ->
  env_window env = Window (Some (Some phantom)) ->
  connect phantom = Throw e ->
  (exists init,
     trace_of (call env options url fo h false pk) =
       [EvFetch url init (Return r); EvJson] ++
       configured (onPaymentStart options) EvOnPaymentStart ++
       [EvWalletLookup; EvWalletConnect] ++
       configured (onPaymentError options) (EvOnPaymentError e)) /\
  (exists e', outcome_of (call env options url fo h false pk) = Throw e') /\
  ((forall cb thrown, onPaymentError options = Some cb -> cb e <> Throw thrown) ->
   outcome_of (call env options url fo h false pk) = Throw e).
Proof.
  unfold configured.
  runs; cbn; intros Hinit Hstatus Hjson Hstart Hwindow Hconnect; impossible;
    try (exfalso; eapply Hstart; reflexivity);
    (split; [eexists; reflexivity|]); (split; [eexists; reflexivity|]);
    intros Hquiet; try reflexivity; exfalso; eapply Hquiet; eauto.
Qed.

Lemma connection_rejected_witness :
  outcome_of (Demo.run Demo.declining Demo.plain_options) = Throw Demo.user_rejected.
Proof.
  apply (connection_rejected Demo.declining Demo.observers "/x"
           Demo.plain_options Demo.caller_heap None Demo.r402 Demo.challenge
           Demo.declining_phantom Demo.user_rejected);
    try reflexivity.
  - intros thrown Hthrown. discriminate Hthrown.
  - intros cb thrown Hcb. injection Hcb as <-. discriminate.
Defined.

(** X12. A payout address that does not parse ends the call before the RPC is
    contacted and before anything is signed: no RPC interaction, no signing
    request, no [onPaymentSuccess], no second request, and the call
    rejects, with the parser's error when the callbacks only observe. *)
Theorem invalid_payout_address env options url fo h c pk r cfg e :
  initial_response (trace_of (call env options url fo h c pk)) = Some (Return r) ->
  status r = 402 ->
  json r = Return cfg ->
  env_PublicKey env (wallet cfg) = Throw e ->
  count is_rpc (trace_of (call env options url fo h c pk)) = 0%nat /\
  count is_sign (trace_of (call env options url fo h c pk)) = 0%nat /\
  count is_success (trace_of (call env options url fo h c pk)) = 0%nat /\
  count is_fetch (trace_of (call env options url fo h c pk)) = 1%nat /\
  (exists e', outcome_of (call env options url fo h c pk) = Throw e') /\
  (notify_only options ->
   In (EvNewPublicKey (wallet cfg)) (trace_of (call env options url fo h c pk)) ->
   outcome_of (call env options url fo h c pk) = Throw e).
Proof.
  runs; cbn; intros Hinit Hstatus Hjson Hparse; impossible;
    (repeat (split; [reflexivity|])); (split; [eexists; reflexivity|]);
    intros Hnotify Hin;
    repeat (destruct Hin as [Hin|Hin]; try discriminate); try contradiction;
    try reflexivity; silenced Hnotify.
Qed.

Lemma invalid_payout_address_witness :
  count is_rpc (trace_of (Demo.run Demo.bad_address Demo.plain_options)) = 0%nat /\
  outcome_of (Demo.run Demo.bad_address Demo.plain_options)
    = Throw (Error "Invalid public key input").
Proof.
  destruct (invalid_payout_address Demo.bad_address Demo.observers "/x"
              Demo.plain_options Demo.caller_heap false None
              Demo.r402_bad_address Demo.bad_address_challenge
              (Error "Invalid public key input"))
    as (Hrpc & _ & _ & _ & _ & Hout); try reflexivity.
  split; [exact Hrpc|].
  apply Hout; [apply observers_notify_only|].
  vm_compute. do 5 right. left. reflexivity.
Defined.

(** X13. When the RPC endpoint cannot be used, because the connection cannot be
    made or the blockhash request fails, the wallet is never asked to sign:
    no signing request, no token, no [onPaymentSuccess], no second
    request. *)
Theorem rpc_failure_signs_nothing env options url fo h c pk e :
  env_Connection env (default default_rpcUrl (rpcUrl options)) = Throw e \/
  env_getLatestBlockhash env (default default_rpcUrl (rpcUrl options)) = Throw e ->
  count is_sign (trace_of (call env options url fo h c pk)) = 0%nat /\
  count is_token (trace_of (call env options url fo h c pk)) = 0%nat /\
  count is_success (trace_of (call env options url fo h c pk)) = 0%nat /\
  count is_fetch (trace_of (call env options url fo h c pk)) = 1%nat.
Proof.
  runs; cbn; intros [Hdown|Hdown]; impossible; repeat split; reflexivity.
Qed.

Lemma rpc_failure_signs_nothing_witness :
  count is_sign (trace_of (Demo.run Demo.rpc_down Demo.plain_options)) = 0%nat.
Proof.
  apply (rpc_failure_signs_nothing Demo.rpc_down Demo.observers "/x"
           Demo.plain_options Demo.caller_heap false None Demo.rpc_error).
  right. reflexivity.
Defined.

(** X14. When the wallet refuses to sign, no token exists: [onPaymentSuccess] is
    not called and no second request is sent; [onPaymentError], if
    configured, is told of the wallet's error, and the caller gets that
    error unless the callback throws. *)
Theorem signing_rejected env options url fo h c pk phantom tx e :
  env_window env = Window (Some (Some phantom)) ->
  In (EvSignTransaction tx) (trace_of (call env options url fo h c pk)) ->
  signTransaction phantom tx = Throw e ->
  count is_token (trace_of (call env options url fo h c pk)) = 0%nat /\
  count is_success (trace_of (call env options url fo h c pk)) = 0%nat /\
  count is_fetch (trace_of (call env options url fo h c pk)) = 1%nat /\
  List.filter is_error (trace_of (call env options url fo h c pk)) =
    configured (onPaymentError options) (EvOnPaymentError e) /\
  ((forall cb thrown, onPaymentError options = Some cb -> cb e <> Throw thrown) ->
   outcome_of (call env options url fo h c pk) = Throw e).
Proof.
  unfold configured.
  runs; cbn; intros Hwindow Hin Hsign;
    repeat (destruct Hin as [Hin|Hin]; try discriminate); try contradiction;
    impossible;
    (repeat (split; [reflexivity|]));
    intros Hquiet; try reflexivity; exfalso; eapply Hquiet; eauto.
Qed.

Lemma signing_rejected_witness :
  count is_fetch (trace_of (Demo.run Demo.refusing Demo.plain_options)) = 1%nat /\
  outcome_of (Demo.run Demo.refusing Demo.plain_options) = Throw Demo.user_rejected.
Proof.
  destruct (signing_rejected Demo.refusing Demo.observers "/x"
              Demo.plain_options Demo.caller_heap false None
              Demo.refusing_phantom
              {| recentBlockhash := "BH"; feePayer := Some Demo.payer;
                 instructions :=
                   [SystemTransfer (Some Demo.payer) Demo.payee 5000000] |}
              Demo.user_rejected)
    as (_ & _ & Hfetch & _ & Hout); try reflexivity.
  - vm_compute. do 8 right. left. reflexivity.
  - split; [exact Hfetch|]. apply Hout.
    intros cb thrown Hcb. injection Hcb as <-. discriminate.
Defined.

(** ** Callbacks that throw *)

(** X15. The callbacks run inside the [try]: when [onPaymentStart] throws after
    a challenge was read, the payment is abandoned before the wallet is
    touched.  The call consists of the request, the reading of the body,
    the callback and the report to [onPaymentError]; the caller gets the
    callback's error unless [onPaymentError] throws too. *)
Theorem start_callback_throws env options url fo h c pk r cfg e :
  initial_response (trace_of (call env options url fo h c pk)) = Some (Return r) ->
  status r = 402 ->
  json r = Return cfg ->
  onPaymentStart options = Some (Throw e) ->
  (exists init,
     trace_of (call env options url fo h c pk) =
       [EvFetch url init (Return r); EvJson; EvOnPaymentStart] ++
       configured (onPaymentError options) (EvOnPaymentError e)) /\
  ((forall cb thrown, onPaymentError options = Some cb -> cb e <> Throw thrown) ->
   outcome_of (call env options url fo h c pk) = Throw e).
Proof.
  unfold configured.
  runs; cbn; intros Hinit Hstatus Hjson Hstart; impossible;
    (split; [eexists; reflexivity|]);
    intros Hquiet; try reflexivity; exfalso; eapply Hquiet; eauto.
Qed.

Lemma start_callback_throws_witness :
  outcome_of (call Demo.paying Demo.start_throws "/x" Demo.plain_options
                Demo.caller_heap false None) = Throw Demo.ui_error.
Proof.
  apply (start_callback_throws Demo.paying Demo.start_throws "/x"
           Demo.plain_options Demo.caller_heap false None
           Demo.r402 Demo.challenge Demo.ui_error);
    try reflexivity.
  intros cb thrown Hcb. injection Hcb as <-. discriminate.
Defined.

(** X16. When [onPaymentSuccess] throws, the payment has been signed but the
    request is not repeated: one signing request, one token, one request
    in all; the caller gets the callback's error unless [onPaymentError]
    throws. *)
Theorem success_callback_throws env options url fo h c pk on_success sig e :
  onPaymentSuccess options = Some on_success ->
  In (EvOnPaymentSuccess sig) (trace_of (call env options url fo h c pk)) ->
  on_success sig = Throw e ->
  count is_sign (trace_of (call env options url fo h c pk)) = 1%nat /\
  count is_token (trace_of (call env options url fo h c pk)) = 1%nat /\
  count is_fetch (trace_of (call env options url fo h c pk)) = 1%nat /\
  ((forall cb thrown, onPaymentError options = Some cb -> cb e <> Throw thrown) ->
   outcome_of (call env options url fo h c pk) = Throw e).
Proof.
  runs; cbn; intros Hsuccess Hin Hthrows;
    repeat (destruct Hin as [Hin|Hin]; try discriminate); try contradiction;
    impossible;
    (repeat (split; [reflexivity|]));
    intros Hquiet; try reflexivity; exfalso; eapply Hquiet; eauto.
Qed.

Lemma success_callback_throws_witness :
  count is_sign (trace_of (call Demo.paying Demo.success_throws "/x"
                             Demo.plain_options Demo.caller_heap false None)) = 1%nat /\
  count is_fetch (trace_of (call Demo.paying Demo.success_throws "/x"
                              Demo.plain_options Demo.caller_heap false None)) = 1%nat.
Proof.
  assert (Hin : In (EvOnPaymentSuccess "2NEpo7TZRRrLZSi2U")
                  (trace_of (call Demo.paying Demo.success_throws "/x"
                               Demo.plain_options Demo.caller_heap false None))).
  { vm_compute. do 10 right. left. reflexivity. }
  destruct (success_callback_throws Demo.paying Demo.success_throws "/x"
              Demo.plain_options Demo.caller_heap false None
              (fun _ => Throw Demo.ui_error) "2NEpo7TZRRrLZSi2U" Demo.ui_error
              eq_refl Hin eq_refl)
    as (Hsign & _ & Hfetch & _).
  split; [exact Hsign | exact Hfetch].
Defined.

(** ** The acquirer on its own *)

(** X17. [createAndSignTransaction] works on the wallet and the ledger only: it
    leaves the heap as it is, sends no request, reads no response body and
    calls no callback; and a wallet that was connected stays connected
    with the same key. *)
Theorem acquirer_frame env cfg rpc s :
  st_heap (snd (createAndSignTransaction env cfg rpc s)) = st_heap s /\
  (exists t,
     st_trace (snd (createAndSignTransaction env cfg rpc s)) = st_trace s ++ t /\
     count is_fetch t = 0%nat /\ count is_json t = 0%nat /\
     count is_callback t = 0%nat) /\
  (st_isConnected s = true ->
   st_isConnected (snd (createAndSignTransaction env cfg rpc s)) = true /\
   st_publicKey (snd (createAndSignTransaction env cfg rpc s)) = st_publicKey s).
Proof.
  destruct (createAndSignTransaction env cfg rpc s) as [out s'] eqn:Hrun.
  destruct s as [h c pk t0].
  unfold_program_in Hrun.
  repeat (step_in Hrun; unfold_program_in Hrun);
    injection Hrun as <- <-; cbn [snd st_heap st_trace st_isConnected st_publicKey];
    (split; [reflexivity|]);
    (split; [repeat rewrite <- app_assoc;
             first [ eexists; split; [reflexivity|]; repeat split; reflexivity
                   | exists []; rewrite app_nil_r; repeat split; reflexivity ] |]);
    intros ->; try discriminate; split; reflexivity.
Qed.

Lemma acquirer_frame_witness :
  st_publicKey (snd (createAndSignTransaction Demo.paying Demo.challenge
                       default_rpcUrl
                       {| st_heap := Demo.caller_heap; st_isConnected := true;
                          st_publicKey := Some Demo.payee; st_trace := [] |}))
    = Some Demo.payee.
Proof.
  apply (acquirer_frame Demo.paying Demo.challenge default_rpcUrl
           {| st_heap := Demo.caller_heap; st_isConnected := true;
              st_publicKey := Some Demo.payee; st_trace := [] |}).
  reflexivity.
Defined.

(** X18. The key that pays is read after the connection: for a wallet that was
    not connected it is the key [connect()] resolved with, not the one the
    wallet showed before; for a connected wallet it is its current key.
    Every transaction handed to the wallet has that key as fee payer and as
    source of its single transfer. *)
Theorem payer_is_read_after_connect env cfg rpc s phantom :
  env_window env = Window (Some (Some phantom)) ->
  exists t,
    st_trace (snd (createAndSignTransaction env cfg rpc s)) = st_trace s ++ t /\
    forall tx,
      In (EvSignTransaction tx) t ->
      exists payer destination,
        (if st_isConnected s then payer = st_publicKey s
         else connect phantom = Return payer) /\
        feePayer tx = payer /\
        instructions tx = [SystemTransfer payer destination (priceLamports cfg)].
Proof.
  destruct (createAndSignTransaction env cfg rpc s) as [out s'] eqn:Hrun.
  destruct s as [h c pk t0].
  unfold_program_in Hrun.
  repeat (step_in Hrun; unfold_program_in Hrun);
    injection Hrun as <- <-; cbn [snd st_trace st_isConnected st_publicKey];
    intros Hwindow; impossible;
    repeat rewrite <- app_assoc;
    (first [ eexists; split; [reflexivity|]
           | exists []; split; [rewrite app_nil_r; reflexivity|] ]);
    intros tx Hin; cbn in Hin;
    repeat (destruct Hin as [Hin|Hin]; try discriminate); try contradiction;
    injection Hin as <-; cbn;
    do 2 eexists; (split; [first [reflexivity | eassumption]|]);
    split; reflexivity.
Qed.

Lemma payer_is_read_after_connect_witness :
  exists t,
    st_trace (snd (createAndSignTransaction Demo.paying Demo.challenge
                     default_rpcUrl (start Demo.caller_heap false (Some Demo.payee))))
      = [] ++ t.
Proof.
  destruct (payer_is_read_after_connect Demo.paying Demo.challenge default_rpcUrl
              (start Demo.caller_heap false (Some Demo.payee)) Demo.phantom eq_refl)
    as (t & Htrace & _).
  exists t. exact Htrace.
Defined.

(** ** The options argument *)

Ltac evaluate_retry :=
  repeat match goal with
  | H : retry_value _ _ _ = _ |- _ =>
      cbv [retry_value default_value default_heap default_fetchOptions
           retry_init object_spread get_prop define_prop alloc bind ret
           set_heap start] in H;
      cbn [st_heap st_trace st_isConnected st_publicKey fst snd] in H;
      first [discriminate H | injection H as H]
  end.

(** X19. With [null] for options the retry cannot be built: reading
    [fetchOptions.headers] is a TypeError.  Such a call sends one request
    only; it resolves only when that one is no challenge; and once a token
    has been produced it rejects, with the TypeError when the callbacks
    only observe. *)
Theorem null_options_never_retry env options url h c pk :
  count is_fetch (trace_of (call env options url VNull h c pk)) = 1%nat /\
  (forall r,
     outcome_of (call env options url VNull h c pk) = Return r ->
     status r <> 402) /\
  (notify_only options ->
   count is_token (trace_of (call env options url VNull h c pk)) = 1%nat ->
   exists msg,
     outcome_of (call env options url VNull h c pk) = Throw (TypeError msg)).
Proof.
  runs; evaluate_retry; cbn;
    (split; [reflexivity|]);
    (split; [intros r Hout; impossible|]);
    intros Hnotify Htoken; try discriminate; subst;
    first [ eexists; reflexivity | silenced Hnotify ].
Qed.

Lemma null_options_never_retry_witness :
  exists msg,
    outcome_of (call Demo.paying Demo.observers "/x" VNull Demo.caller_heap false None)
      = Throw (TypeError msg).
Proof.
  apply (null_options_never_retry Demo.paying Demo.observers "/x"
           Demo.caller_heap false None).
  - apply observers_notify_only.
  - vm_compute. reflexivity.
Defined.

(** X20. Without options the retry is built from the default [{}]: the second
    request's options hold [headers] and nothing else, and those headers
    hold the proof header, set to the encoded token, and nothing else. *)
Theorem default_options_retry env options url h c pk u init :
  fetch_requests (trace_of (call env options url VUndefined h c pk)) !! 1%nat
    = Some (u, init) ->
  exists lo li bytes,
    init = VRef lo /\
    heap_of (call env options url VUndefined h c pk) !! lo
      = Some (OPlain {[ "headers" := VRef li ]}) /\
    heap_of (call env options url VUndefined h c pk) !! li
      = Some (OPlain {[ "x-tx-signature" := VStr (env_bs58_encode env bytes) ]}) /\
    In (EvBs58Encode (Some bytes))
       (trace_of (call env options url VUndefined h c pk)).
Proof.
  runs; cbn; intros Hsecond; try discriminate; injection Hsecond as <- <-;
    change (default_value VUndefined h) with (VRef (fresh (dom h))) in *;
    change (default_heap VUndefined h)
      with (<[fresh (dom h) := OPlain ∅]> h) in *;
    match goal with
    | Hv : retry_value _ ?sig _ = Return ?v |- _ =>
        destruct (retry_init_plain (<[fresh (dom h) := OPlain ∅]> h)
                    (fresh (dom h)) ∅ sig (lookup_insert_eq _ _ _))
          as (lo & li & Hlo & Hli & Hvalue & Hopts & Hsent);
        rewrite Hvalue in Hv; injection Hv as <-
    end;
    rewrite lookup_empty in Hsent; cbn in Hsent;
    rewrite insert_empty in Hopts, Hsent;
    do 3 eexists; (split; [reflexivity|]); (split; [exact Hopts|]);
    (split; [exact Hsent|]);
    repeat first [left; reflexivity | right].
Qed.

Lemma default_options_retry_witness :
  exists lo li,
    heap_of (call Demo.paying Demo.observers "/x" VUndefined ∅ false None) !! lo
      = Some (OPlain {[ "headers" := VRef li ]}).
Proof.
  destruct (default_options_retry Demo.paying Demo.observers "/x" ∅ false None
              "/x" (VRef 2%positive))
    as (lo & li & bytes & _ & Hopts & _).
  - vm_compute. reflexivity.
  - exists lo, li. exact Hopts.
Defined.

(** ** Entering through [initMonoPay] *)

(** X2. [initMonoPay] hands out a middleware only where [window] exists, so a
    middleware obtained from it that meets a challenge without a Phantom
    provider always rejects with the wallet-not-found error (the callbacks
    only observing), never with a ReferenceError. *)
Theorem initMonoPay_middleware_reports_missing_wallet
    env options middleware url fo h c pk r cfg :
  initMonoPay env options = Return middleware ->
  (forall provider, env_window env <> Window (Some (Some provider))) ->
  initial_response (st_trace (snd (middleware url fo (start h c pk))))
    = Some (Return r) ->
  status r = 402 ->
  json r = Return cfg ->
  notify_only options ->
  fst (middleware url fo (start h c pk)) = Throw WalletUnavailable.
Proof.
  unfold initMonoPay, createMonoPayMiddleware.
  intros Hinit. destruct (env_window env) eqn:Hwindow; [discriminate|].
  injection Hinit as <-.
  change (monoPayFetch env options url fo (start h c pk))
    with (call env options url fo h c pk).
  change (fst (call env options url fo h c pk))
    with (outcome_of (call env options url fo h c pk)).
  change (st_trace (snd (call env options url fo h c pk)))
    with (trace_of (call env options url fo h c pk)).
  revert Hwindow.
  runs; cbn; intros Hwindow Hnone Hinit Hstatus Hjson Hnotify; impossible;
    try reflexivity;
    first [ exfalso; eapply Hnone; reflexivity | silenced Hnotify ].
Qed.

Lemma initMonoPay_middleware_reports_missing_wallet_witness :
  fst (monoPayFetch Demo.no_wallet Demo.observers "/x" Demo.plain_options
         (start Demo.caller_heap false None)) = Throw WalletUnavailable.
Proof.
  apply (initMonoPay_middleware_reports_missing_wallet Demo.no_wallet
           Demo.observers (monoPayFetch Demo.no_wallet Demo.observers) "/x"
           Demo.plain_options Demo.caller_heap false None
           Demo.r402 Demo.challenge eq_refl).
  - intros provider Hprovider. discriminate Hprovider.
  - vm_compute. reflexivity.
  - reflexivity.
  - reflexivity.
  - apply observers_notify_only.
Defined.

(** ** Instances of the lemmas above *)

Lemma plain_headers_reach_the_retry_witness :
  exists lo li props' sent,
    heap_of (Demo.run Demo.paying Demo.plain_options) !! lo = Some (OPlain props') /\
    props' !! "headers" = Some (VRef li) /\
    props' !! "method" = Some (VStr "POST") /\
    props' !! "body" = Some (VStr "payload") /\
    heap_of (Demo.run Demo.paying Demo.plain_options) !! li = Some (OPlain sent) /\
    sent !! "Authorization" = Some (VStr "Bearer t").
Proof.
  destruct (plain_headers_reach_the_retry Demo.paying Demo.observers "/x"
              1%positive
              (<["method" := VStr "POST"]>
                 (<["body" := VStr "payload"]>
                    (<["headers" := VRef 2%positive]> ∅)))
              (<["Authorization" := VStr "Bearer t"]>
                 (<["x-tx-signature" := VStr "stale"]> ∅))
              Demo.caller_heap false None)
    with (u := "/x") (init := VRef 5%positive)
    as (lo & li & props' & sent & bytes & _ & _ & Hopts & Hheaders & Hrest
        & Hsent & _ & _ & Hkept).
  - vm_compute. reflexivity.
  - right. exists 2%positive. split; vm_compute; reflexivity.
  - vm_compute. reflexivity.
  - exists lo, li, props', sent.
    split; [exact Hopts|]. split; [exact Hheaders|].
    split; [rewrite Hrest by discriminate; vm_compute; reflexivity|].
    split; [rewrite Hrest by discriminate; vm_compute; reflexivity|].
    split; [exact Hsent|].
    rewrite Hkept by discriminate. vm_compute. reflexivity.
Defined.

Lemma proof_acquired_in_a_call_witness :
  exists cfg destination,
    json Demo.r402 = Return cfg /\
    env_PublicKey Demo.paying (wallet cfg) = Return destination.
Proof.
  destruct (proof_acquired_in_a_call Demo.paying Demo.observers "/x"
              Demo.plain_options Demo.caller_heap false None Demo.signature_bytes)
    as (r & cfg & phantom & destination & latest & signed
        & Hinit & _ & Hjson & _ & Hkey & _).
  - vm_compute. do 9 right. left. reflexivity.
  - assert (Hfirst : initial_response
                       (trace_of (call Demo.paying Demo.observers "/x"
                          Demo.plain_options Demo.caller_heap false None))
                     = Some (Return Demo.r402)) by (vm_compute; reflexivity).
    rewrite Hfirst in Hinit. injection Hinit as <-.
    exists cfg, destination. split; [exact Hjson | exact Hkey].
Defined.

(** ** The paid path *)



